(** * devlib: the cpufreq module (devlib/module/cpufreq.py)

    A shallow embedding of [CpufreqModule]: the governor and tunable
    accessors, the scoped override [use_governor] and the domain iterator
    [iter_domains], over a model of the target's sysfs namespace.

    Conventions.
    - Python values that the module receives as [Union[int, str]] are
      [pyval]; [str] is [string]; [int] is [Z].
    - A method [async def f(self, ...)] is a computation in the monad [M]:
      it threads the module and target state and either returns or raises.
    - Dictionaries whose iteration order is observable ([**kwargs],
      [cpus_infos], [global_tunables_dict]) are insertion-ordered
      association lists ([pydict]); caches that are only looked up are
      [gmap]s; Python sets of cpu numbers are [gset Z]. *)

From Stdlib Require Import ZArith Lia Ascii.
From stdpp Require Import base option list strings gmap pretty sorting.

(** ** Python values and exceptions *)

Inductive pyval :=
  | PInt (z : Z)
  | PStr (s : string).

Global Instance pyval_eq_dec : EqDecision pyval.
Proof. solve_decision. Defined.

Definition pyval_to_sum (v : pyval) : Z + string :=
  match v with PInt z => inl z | PStr s => inr s end.

Definition pyval_of_sum (x : Z + string) : pyval :=
  match x with inl z => PInt z | inr s => PStr s end.

Global Instance pyval_countable : Countable pyval.
Proof. apply (inj_countable' pyval_to_sum pyval_of_sum). by intros []. Defined.

(** The exception classes the module raises or lets through, and any other
    class a caller's code may raise. *)
Inductive exn_class :=
  | TargetStableError
  | KeyError
  | IndexError
  | ValueError
  | UserError (name : string).

(** An exception instance with its message and its [__context__]. *)
#[local] Set Warnings "-register-all".
Inductive exn :=
  | Exn (cls : exn_class) (msg : string) (context : option exn).

Definition exn_cls (e : exn) : exn_class := let 'Exn c _ _ := e in c.
Definition exn_msg (e : exn) : string := let 'Exn _ m _ := e in m.
Definition exn_context (e : exn) : option exn := let 'Exn _ _ c := e in c.

Global Instance exn_class_eq_dec : EqDecision exn_class.
Proof. solve_decision. Defined.

(** Implicit exception chaining: [e] is raised while [pending] is being
    handled, so [pending] ends [e]'s chain of contexts. *)
Fixpoint with_context (pending : exn) (e : exn) : exn :=
  match e with
  | Exn c m None => Exn c m (Some pending)
  | Exn c m (Some e') => Exn c m (Some (with_context pending e'))
  end.

Inductive result (A : Type) :=
  | Ok (a : A)
  | Raise (e : exn).
Arguments Ok {A} a.
Arguments Raise {A} e.

(** ** Strings: [str()], [repr()], [strip()], [int()] *)

Definition nl : string := String (Ascii.ascii_of_nat 10) "".

Definition py_str (v : pyval) : string :=
  match v with PInt z => pretty z | PStr s => s end.

(** [repr] of a [str] without quote or escape characters in it. *)
Definition py_repr_str (s : string) : string := "'" +:+ s +:+ "'".

Definition py_repr (v : pyval) : string :=
  match v with PInt z => pretty z | PStr s => py_repr_str s end.

Fixpoint join (sep : string) (l : list string) : string :=
  match l with
  | [] => ""
  | [x] => x
  | x :: l' => x +:+ sep +:+ join sep l'
  end.

(** [repr] of a list of [str], as ['{}'.format(valid_tunables)] prints it. *)
Definition py_repr_list (l : list string) : string :=
  "[" +:+ join ", " (py_repr_str <$> l) +:+ "]".

Fixpoint lstrip (s : string) : string :=
  match s with
  | String a s' => if Ascii.is_space a then lstrip s' else s
  | "" => ""
  end.

Definition strip (s : string) : string :=
  String.rev (lstrip (String.rev (lstrip s))).

Fixpoint digits_go (acc : Z) (s : string) : option Z :=
  match s with
  | "" => Some acc
  | String a s' =>
      match Ascii.is_nat a with
      | Some d => digits_go (10 * acc + Z.of_nat d)%Z s'
      | None => None
      end
  end.

Definition digits (s : string) : option Z :=
  match s with "" => None | _ => digits_go 0%Z s end.

(** [int(s)] for a [str]: surrounding white space, an optional sign, decimal
    digits. [None] is Python's [ValueError]. *)
Definition int_of_string (s : string) : option Z :=
  match strip s with
  | String "-"%char s' => Z.opp <$> digits s'
  | String "+"%char s' => digits s'
  | s' => digits s'
  end.

Definition py_int (v : pyval) : result Z :=
  match v with
  | PInt z => Ok z
  | PStr s =>
      match int_of_string s with
      | Some z => Ok z
      | None =>
          Raise (Exn ValueError
            ("invalid literal for int() with base 10: " +:+ py_repr_str s) None)
      end
  end.

Fixpoint strip_prefix (p s : string) : option string :=
  match p, s with
  | "", _ => Some s
  | String a p', String b s' =>
      if decide (a = b) then strip_prefix p' s' else None
  | String _ _, "" => None
  end.

(** ** Insertion-ordered dictionaries *)

Definition pydict (K V : Type) : Type := list (K * V).

Section pydict.
Context {K V : Type} `{EqDecision K}.

Fixpoint dict_get (k : K) (d : pydict K V) : option V :=
  match d with
  | [] => None
  | (k', v) :: d' => if decide (k = k') then Some v else dict_get k d'
  end.

(** [d[k] = v]: an existing key keeps its position. *)
Fixpoint dict_set (k : K) (v : V) (d : pydict K V) : pydict K V :=
  match d with
  | [] => [(k, v)]
  | (k', v') :: d' =>
      if decide (k = k') then (k, v) :: d' else (k', v') :: dict_set k v d'
  end.

(** [dict(items)], also a dict comprehension over [items]. *)
Definition dict_of_items (items : list (K * V)) : pydict K V :=
  foldl (λ d kv, dict_set kv.1 kv.2 d) [] items.

Definition dict_keys (d : pydict K V) : list K := fst <$> d.
Definition dict_values (d : pydict K V) : list V := snd <$> d.
End pydict.

(** ** The target: sysfs files behind the read, write and list primitives *)

(** What [AsyncManager.track_access] records: one entry per primitive call,
    in the order the calls are issued. *)
Inductive access :=
  | Read (path : string)
  | Write (path : string) (value : string)
  | ListDir (path : string)
  | Execute (cmd : string).

(** Modelled from the spec: the device collaborator of section 6
    (devlib/target.py is outside this module). Files and directories are
    keyed by their real path; [links] are the directory symlinks of sysfs
    (every [cpuN/cpufreq/] of one policy leads to the same directory);
    [unreadable] holds the real paths of the files that exist but cannot be
    read (write-only nodes). *)
Record target := Target {
  files : gmap string string;
  directories : gmap string (list string);
  links : list (string * string);
  online_cpus : list Z;
  number_of_cpus : nat;
  unreadable : gset string;
}.

(** The module instance together with its target: [self._governor_tunables],
    the caches of the [memoized_method]s, and the accesses made so far. *)
Record state := State {
  tgt : target;
  governor_tunables : gmap string (string * bool * list string);
  list_governors_memo : gmap pyval (list string);
  list_frequencies_memo : gmap pyval (list Z);
  get_related_cpus_memo : gmap pyval (list Z);
  accesses : list access;
}.

Definition set_files (f : gmap string string) (s : state) : state :=
  State (Target f (directories (tgt s)) (links (tgt s))
           (online_cpus (tgt s)) (number_of_cpus (tgt s))
           (unreadable (tgt s)))
    (governor_tunables s) (list_governors_memo s) (list_frequencies_memo s)
    (get_related_cpus_memo s) (accesses s).

Definition set_governor_tunables_cache
    (c : gmap string (string * bool * list string)) (s : state) : state :=
  State (tgt s) c (list_governors_memo s) (list_frequencies_memo s)
    (get_related_cpus_memo s) (accesses s).

Definition set_list_governors_memo (c : gmap pyval (list string))
    (s : state) : state :=
  State (tgt s) (governor_tunables s) c (list_frequencies_memo s)
    (get_related_cpus_memo s) (accesses s).

Definition set_list_frequencies_memo (c : gmap pyval (list Z))
    (s : state) : state :=
  State (tgt s) (governor_tunables s) (list_governors_memo s) c
    (get_related_cpus_memo s) (accesses s).

Definition set_get_related_cpus_memo (c : gmap pyval (list Z))
    (s : state) : state :=
  State (tgt s) (governor_tunables s) (list_governors_memo s)
    (list_frequencies_memo s) c (accesses s).

Definition add_access (a : access) (s : state) : state :=
  State (tgt s) (governor_tunables s) (list_governors_memo s)
    (list_frequencies_memo s) (get_related_cpus_memo s) (accesses s ++ [a]).

(** ** The monad of the module's methods *)

Definition M (A : Type) : Type := state → result A * state.

Definition ret {A} (a : A) : M A := λ s, (Ok a, s).

Definition raise {A} (e : exn) : M A := λ s, (Raise e, s).

Definition bind {A B} (m : M A) (k : A → M B) : M B := λ s,
  match m s with
  | (Ok a, s') => k a s'
  | (Raise e, s') => (Raise e, s')
  end.

Definition lift_result {A} (r : result A) : M A := λ s, (r, s).

Definition gets {A} (f : state → A) : M A := λ s, (Ok (f s), s).

Definition modify (f : state → state) : M unit := λ s, (Ok tt, f s).

Notation "'let*' x := m 'in' k" := (bind m (λ x, k))
  (at level 10, x pattern, m at level 100, k at level 200).

Notation "m ;; k" := (bind m (λ _, k))
  (at level 100, k at level 200, right associativity).

(** Runs [m] while [pending] is being handled: in an [except] block or in a
    [finally] block entered by an exception. *)
Definition handling {A} (pending : exn) (m : M A) : M A := λ s,
  match m s with
  | (Raise e, s') => (Raise (with_context pending e), s')
  | r => r
  end.

(** [try: body / except cls as e: handler e]. A bare [raise] in the handler is
    [raise e]; anything else the handler runs is under [handling e]. *)
Definition try_except {A} (body : M A) (cls : exn_class)
    (handler : exn → M A) : M A := λ s,
  match body s with
  | (Raise e, s') =>
      if decide (exn_cls e = cls) then handler e s' else (Raise e, s')
  | r => r
  end.

(** [try: body / finally: final]. The [finally] block runs on both exits of
    [body]; an exception leaving it replaces the pending one, which becomes
    its context. *)
Definition try_finally {A} (body : M A) (final : M unit) : M A := λ s,
  match body s with
  | (Ok a, s1) =>
      match final s1 with
      | (Ok _, s2) => (Ok a, s2)
      | (Raise e, s2) => (Raise e, s2)
      end
  | (Raise e1, s1) =>
      match handling e1 final s1 with
      | (Ok _, s2) => (Raise e1, s2)
      | (Raise e2, s2) => (Raise e2, s2)
      end
  end.

(** ** The target's primitives *)

Fixpoint resolve_links (ls : list (string * string)) (path : string) : string :=
  match ls with
  | [] => path
  | (src, dst) :: ls' =>
      match strip_prefix src path with
      | Some rest => dst +:+ rest
      | None => resolve_links ls' path
      end
  end.

Definition realpath (t : target) (path : string) : string :=
  resolve_links (links t) path.

Definition track_access (a : access) : M unit := modify (add_access a).

(** Modelled from the spec: [read_text(path)], the trimmed content, or a
    stable error when the path is absent or unreadable. *)
Definition read_value (path : string) : M string :=
  track_access (Read path);;
  let* t := gets tgt in
  match files t !! realpath t path with
  | Some content =>
      if decide (realpath t path ∈ unreadable t) then
        raise (Exn TargetStableError ("cannot read " +:+ path) None)
      else ret (strip content)
  | None =>
      raise (Exn TargetStableError ("cannot read " +:+ path) None)
  end.

(** Modelled from the spec: [read_int(path)], a parsed form of [read_text]. *)
Definition read_int (path : string) : M Z :=
  let* output := read_value path in
  lift_result (py_int (PStr output)).

(** Modelled from the spec: [write_text(path, value, verify)]; with [verify]
    the path is read back, which fails on a file that cannot be read, and a
    divergence of the trimmed content from [value] raises. *)
Definition write_value (path : string) (value : pyval) (verify : bool)
    : M unit :=
  let value := py_str value in
  track_access (Write path value);;
  let* t := gets tgt in
  match files t !! realpath t path with
  | Some _ =>
      modify (set_files (<[realpath t path := value]> (files t)));;
      if verify && bool_decide (realpath t path ∈ unreadable t) then
        raise (Exn TargetStableError ("cannot read " +:+ path) None)
      else if verify && negb (bool_decide (strip value = value)) then
        raise (Exn TargetStableError
          ("Could not set the value of " +:+ path +:+ " to " +:+ value) None)
      else ret tt
  | None =>
      raise (Exn TargetStableError
        ("Could not write " +:+ value +:+ " to " +:+ path) None)
  end.

(** Modelled from the spec: [list_dir(path)]. *)
Definition list_directory (path : string) : M (list string) :=
  track_access (ListDir path);;
  let* t := gets tgt in
  match directories t !! realpath t path with
  | Some entries => ret entries
  | None =>
      raise (Exn TargetStableError ("cannot list " +:+ path) None)
  end.

(** Modelled from the spec: [run_command(cmd)]; the module only runs
    [cat <path>], whose output is the untrimmed content. *)
Definition execute (cmd : string) : M string :=
  track_access (Execute cmd);;
  let* t := gets tgt in
  match strip_prefix "cat " cmd with
  | Some path =>
      match files t !! realpath t path with
      | Some content =>
          if decide (realpath t path ∈ unreadable t) then
            raise (Exn TargetStableError ("command failed: " +:+ cmd) None)
          else ret content
      | None =>
          raise (Exn TargetStableError ("command failed: " +:+ cmd) None)
      end
  | None => raise (Exn TargetStableError ("command failed: " +:+ cmd) None)
  end.

Definition file_exists (path : string) : M bool :=
  let* t := gets tgt in
  ret (bool_decide (is_Some (files t !! realpath t path))
       || bool_decide (is_Some (directories t !! realpath t path))).

(** Modelled from the spec: [online_devices()]. *)
Definition list_online_cpus : M (list Z) := gets (λ s, online_cpus (tgt s)).

(** ** The coordinator and the cache of devlib.utils.asyn *)

Fixpoint mapM {A B} (f : A → M B) (l : list A) : M (list B) :=
  match l with
  | [] => ret []
  | x :: l' =>
      let* y := f x in
      let* ys := mapM f l' in
      ret (y :: ys)
  end.

(** Modelled from the spec: [concurrently(tasks)] of section 4.2, under the
    schedule that runs the tasks to completion in input order. The results
    come in input order; the first failure is raised and the tasks not yet
    run are cancelled. *)
Fixpoint concurrently {A} (awaitables : list (M A)) : M (list A) :=
  match awaitables with
  | [] => ret []
  | task :: tasks =>
      let* a := task in
      let* rest := concurrently tasks in
      ret (a :: rest)
  end.

(** Modelled from the spec: [map_concurrently(fn, keys)], the mapping from
    each key to its result. *)
Definition map_concurrently {K A} `{EqDecision K} (f : K → M A)
    (keys : list K) : M (pydict K A) :=
  let* results := concurrently (f <$> keys) in
  ret (dict_of_items (zip keys results)).

(** Modelled from the spec: the cache of section 4.3 behind
    [asyn.memoized_method], keyed by the method's argument; a result is
    stored once the call has returned. *)
Definition memoized_method {V} (cache : state → gmap pyval V)
    (set_cache : gmap pyval V → state → state)
    (f : pyval → M V) (arg : pyval) : M V :=
  let* c := gets cache in
  match c !! arg with
  | Some v => ret v
  | None =>
      let* v := f arg in
      let* c' := gets cache in
      modify (set_cache (<[arg := v]> c'));;
      ret v
  end.

(** The order in which a Python set hands out its elements: any enumeration
    without repetition. [next(iter(s))] is its first element. *)
Record set_order := SetOrder {
  set_iter : gset Z → list Z;
  set_iter_NoDup : ∀ X, NoDup (set_iter X);
  set_iter_elem : ∀ X x, x ∈ set_iter X ↔ x ∈ X;
}.

(** ** CpufreqModule *)

Definition WRITE_ONLY_TUNABLES : pydict string (list string) :=
  [("interactive", ["boostpulse"])].

(** [if isinstance(cpu, int): cpu = 'cpu{}'.format(cpu)] *)
Definition cpu_name (cpu : pyval) : string :=
  match cpu with
  | PInt n => "cpu" +:+ pretty n
  | PStr s => s
  end.

(** ['/sys/devices/system/cpu/{}/cpufreq/{}'.format(cpu, leaf)] *)
Definition cpu_cpufreq (cpu leaf : string) : string :=
  "/sys/devices/system/cpu/" +:+ cpu +:+ "/cpufreq/" +:+ leaf.

(** ['/sys/devices/system/cpu/cpufreq/{}'.format(leaf)] *)
Definition global_cpufreq (leaf : string) : string :=
  "/sys/devices/system/cpu/cpufreq/" +:+ leaf.

Definition dquote : string := String (Ascii.ascii_of_nat 34) "".

Definition py_repr_int_list (l : list Z) : string :=
  "[" +:+ join ", " (pretty <$> l) +:+ "]".

Definition ints_of (l : list string) : M (list Z) :=
  mapM (λ c, lift_result (py_int (PStr c))) l.

Definition list_governors : pyval → M (list string) :=
  memoized_method list_governors_memo set_list_governors_memo (λ cpu,
    let cpu := cpu_name cpu in
    let sysfile := cpu_cpufreq cpu "scaling_available_governors" in
    let* output := read_value sysfile in
    ret (String.words (strip output))).

Definition get_governor (cpu : pyval) : M string :=
  let cpu := cpu_name cpu in
  let sysfile := cpu_cpufreq cpu "scaling_governor" in
  read_value sysfile.

Definition _list_governor_tunables (cpu : pyval) (governor : option string)
    : M (string * bool * list string) :=
  let cpu := cpu_name cpu in
  let* governor :=
    match governor with
    | None => get_governor (PStr cpu)
    | Some g => ret g
    end in
  if decide (governor = "") then raise (Exn TargetStableError "" None)
  else
    let* cache := gets governor_tunables in
    match cache !! governor with
    | Some data => ret data
    | None =>
        let* found :=
          try_except
            (let* tunables := list_directory (cpu_cpufreq cpu governor) in
             ret (true, tunables))
            TargetStableError
            (λ _,
              try_except
                (let* tunables := list_directory (global_cpufreq governor) in
                 ret (false, tunables))
                TargetStableError
                (λ _, ret (false, []))) in
        let data := (governor, found.1, found.2) in
        let* cache := gets governor_tunables in
        modify (set_governor_tunables_cache (<[governor := data]> cache));;
        ret data
    end.

Definition list_governor_tunables (cpu : pyval) : M (list string) :=
  let* data := _list_governor_tunables cpu None in
  ret data.2.

Definition get_tunable (cpu governor tunable : string) : M string :=
  try_except
    (read_value (cpu_cpufreq cpu (governor +:+ "/" +:+ tunable)))
    TargetStableError
    (λ e, handling e
       (read_value (global_cpufreq (governor +:+ "/" +:+ tunable)))).

Definition get_governor_tunables (cpu : pyval) : M (pydict string string) :=
  let cpu := cpu_name cpu in
  let* data := _list_governor_tunables (PStr cpu) None in
  let '(governor, _, tunable_list) := data in
  let write_only := default [] (dict_get governor WRITE_ONLY_TUNABLES) in
  let tunable_list :=
    filter (λ tunable, tunable ∉ write_only) tunable_list in
  map_concurrently (get_tunable cpu governor) tunable_list.

(** The message of the error for an unknown tunable. *)
Definition unexpected_tunable_message (tunable governor cpu : string)
    (valid_tunables : list string) : string :=
  "Unexpected tunable " +:+ tunable +:+ " for governor " +:+ governor
  +:+ " on " +:+ cpu +:+ "." +:+ nl
  +:+ "Available tunables are: " +:+ py_repr_list valid_tunables.

(** The path a tunable of [governor] is written to. *)
Definition tunable_path (gov_per_cpu : bool) (cpu governor tunable : string)
    : string :=
  if gov_per_cpu
  then cpu_cpufreq cpu (governor +:+ "/" +:+ tunable)
  else global_cpufreq (governor +:+ "/" +:+ tunable).

Fixpoint set_tunables_loop (cpu governor : string) (gov_per_cpu : bool)
    (valid_tunables : list string) (per_cpu : option bool)
    (kwargs : pydict string pyval) : M unit :=
  match kwargs with
  | [] => ret tt
  | (tunable, value) :: kwargs' =>
      if decide (tunable ∈ valid_tunables) then
        if decide (per_cpu ≠ None ∧ Some gov_per_cpu ≠ per_cpu) then
          set_tunables_loop cpu governor gov_per_cpu valid_tunables per_cpu
            kwargs'
        else
          let path := tunable_path gov_per_cpu cpu governor tunable in
          write_value path value true;;
          set_tunables_loop cpu governor gov_per_cpu valid_tunables per_cpu
            kwargs'
      else
        let message :=
          unexpected_tunable_message tunable governor cpu valid_tunables in
        raise (Exn TargetStableError message None)
  end.

Definition set_governor_tunables (cpu : pyval) (governor : option string)
    (per_cpu : option bool) (kwargs : pydict string pyval) : M unit :=
  match kwargs with
  | [] => ret tt
  | _ =>
      let cpu := cpu_name cpu in
      let* data := _list_governor_tunables (PStr cpu) governor in
      let '(governor, gov_per_cpu, valid_tunables) := data in
      set_tunables_loop cpu governor gov_per_cpu valid_tunables per_cpu kwargs
  end.

Definition set_governor (cpu : pyval) (governor : string)
    (kwargs : pydict string pyval) : M unit :=
  let cpu := cpu_name cpu in
  let* supported := list_governors (PStr cpu) in
  if decide (governor ∈ supported) then
    let sysfile := cpu_cpufreq cpu "scaling_governor" in
    write_value sysfile (PStr governor) true;;
    set_governor_tunables (PStr cpu) (Some governor) None kwargs
  else
    raise (Exn TargetStableError
      ("Governor " +:+ governor +:+ " not supported for cpu " +:+ cpu) None).

Definition list_frequencies : pyval → M (list Z) :=
  memoized_method list_frequencies_memo set_list_frequencies_memo (λ cpu,
    let cpu := cpu_name cpu in
    let* available_frequencies :=
      try_except
        (let cmd :=
           "cat /sys/devices/system/cpu/" +:+ cpu
           +:+ "/cpufreq/scaling_available_frequencies" in
         let* output := execute cmd in
         ints_of (String.words (strip output)))
        TargetStableError
        (λ e,
          let path := cpu_cpufreq cpu "stats/time_in_state" in
          handling e
            (let* out_iter :=
               try_except
                 (let* content := read_value path in
                  ret (Some (String.words content)))
                 TargetStableError
                 (λ e',
                   let* found := handling e' (file_exists path) in
                   (* [return []] when the file is absent, else [raise] *)
                   if found then raise e' else ret None) in
             match out_iter with
             | None => ret []
             | Some out_iter =>
                 ints_of (reverse (fst <$> zip out_iter out_iter))
             end)) in
    ret (merge_sort Z.le available_frequencies)).

Definition get_frequency (cpu : pyval) (cpuinfo : bool) : M Z :=
  let cpu := cpu_name cpu in
  let sysfile :=
    cpu_cpufreq cpu
      (if cpuinfo then "cpuinfo_cur_freq" else "scaling_cur_freq") in
  read_int sysfile.

Definition set_frequency (cpu : pyval) (frequency : pyval) (exact : bool)
    : M unit :=
  let cpu := cpu_name cpu in
  try_except
    (let* value := lift_result (py_int frequency) in
     (if exact then
        let* available_frequencies := list_frequencies (PStr cpu) in
        if decide (available_frequencies ≠ [] ∧ value ∉ available_frequencies)
        then
          raise (Exn TargetStableError
            ("Can't set " +:+ cpu +:+ " frequency to " +:+ pretty value
             +:+ nl +:+ "must be in "
             +:+ py_repr_int_list available_frequencies) None)
        else ret tt
      else ret tt);;
     let* current := get_governor (PStr cpu) in
     if decide (current ≠ "userspace") then
       raise (Exn TargetStableError
         ("Can't set " +:+ cpu +:+ " frequency; governor must be "
          +:+ dquote +:+ "userspace" +:+ dquote) None)
     else
       let sysfile := cpu_cpufreq cpu "scaling_setspeed" in
       write_value sysfile (PInt value) false;;
       (* a mismatch with the read-back value is only logged as a warning *)
       let* cpuinfo := get_frequency (PStr cpu) true in
       ret tt)
    ValueError
    (λ e,
      raise (with_context e (Exn ValueError
        ("Frequency must be an integer; got: " +:+ dquote
         +:+ py_str frequency +:+ dquote) None))).

Definition get_affected_cpus (cpu : pyval) : M (list Z) :=
  let cpu := cpu_name cpu in
  let sysfile := cpu_cpufreq cpu "affected_cpus" in
  let* content := read_value sysfile in
  ints_of (String.words content).

Definition get_related_cpus : pyval → M (list Z) :=
  memoized_method get_related_cpus_memo set_get_related_cpus_memo (λ cpu,
    let cpu := cpu_name cpu in
    let sysfile := cpu_cpufreq cpu "related_cpus" in
    let* content := read_value sysfile in
    ints_of (String.words content)).

(** *** use_governor *)

(** One entry of [cpus_infos]: [domain, prev_gov, tunables, freq]. *)
Record cpu_info := CpuInfo {
  info_domain : list Z;
  info_prev_gov : string;
  info_tunables : pydict string string;
  info_freq : Z;
}.

(** The four reads of one cpu, awaited together. *)
Definition get_cpu_info (cpu : pyval) : M cpu_info :=
  let* domain := get_affected_cpus cpu in
  let* prev_gov := get_governor cpu in
  let* tunables := get_governor_tunables cpu in
  let* freq := get_frequency cpu false in
  ret (CpuInfo domain prev_gov tunables freq).

(** [d[k]], raising [KeyError(k)]. *)
Definition dict_item {V} (d : pydict pyval V) (k : pyval) : M V :=
  match dict_get k d with
  | Some v => ret v
  | None => raise (Exn KeyError (py_repr k) None)
  end.

(** [info[0][0]] *)
Definition first_affected (info : cpu_info) : M Z :=
  match info_domain info with
  | cpu :: _ => ret cpu
  | [] => raise (Exn IndexError "list index out of range" None)
  end.

(** [**tunables] for a dict read from the target. *)
Definition as_kwargs (tunables : pydict string string)
    : pydict string pyval :=
  prod_map id PStr <$> tunables.

Definition set_per_cpu_tunables (cpus_infos : pydict pyval cpu_info)
    (cpu : Z) : M unit :=
  let* info := dict_item cpus_infos (PInt cpu) in
  set_governor_tunables (PInt cpu) (Some (info_prev_gov info)) (Some true)
    (as_kwargs (info_tunables info));;
  if decide (info_prev_gov info = "userspace") then
    set_frequency (PInt cpu) (PInt (info_freq info)) true
  else ret tt.

Definition global_tunables_dict (cpus_infos : pydict pyval cpu_info)
    : pydict string (pyval * pydict string string) :=
  dict_of_items
    ((λ item, (info_prev_gov item.2, (item.1, info_tunables item.2)))
       <$> cpus_infos).

(** The governor restores of the [finally] block: the generator is turned
    into a list of tasks ([cpus_infos[cpu]] is looked up for each) and the
    tasks are then awaited. *)
Definition restore_governors (so : set_order)
    (cpus_infos : pydict pyval cpu_info) (domains : gset Z) : M (list unit) :=
  let* tasks :=
    mapM (λ cpu,
            let* info := dict_item cpus_infos (PInt cpu) in
            ret (set_governor (PInt cpu) (info_prev_gov info) []))
      (set_iter so domains) in
  concurrently tasks.

(** The [finally] block of [use_governor]. [per_cpu_tunables] and
    [global_tunables] are coroutines: they are built first and run only
    where they are awaited, after the governors. *)
Definition use_governor_finally (so : set_order)
    (cpus_infos : pydict pyval cpu_info) (domains : gset Z) : M unit :=
  let per_cpu_tunables : M (list unit) :=
    concurrently (set_per_cpu_tunables cpus_infos <$> set_iter so domains) in
  let global_tunables : M (list unit) :=
    concurrently
      ((λ item,
          set_governor_tunables item.2.1 (Some item.1) (Some false)
            (as_kwargs item.2.2))
         <$> global_tunables_dict cpus_infos) in
  restore_governors so cpus_infos domains;;
  concurrently [per_cpu_tunables; global_tunables];;
  ret tt.

(** The capture of [use_governor]: the targeted cpus and their
    [cpus_infos]. *)
Definition use_governor_capture (cpus : option (list pyval))
    : M (pydict pyval cpu_info) :=
  let* cpus :=
    match cpus with
    | None | Some [] =>
        let* online := list_online_cpus in ret (PInt <$> online)
    | Some cpus => ret cpus
    end in
  map_concurrently get_cpu_info cpus.

(** [domains = set(info[0][0] for info in cpus_infos.values())] *)
Definition use_governor_domains (cpus_infos : pydict pyval cpu_info)
    : M (gset Z) :=
  let* firsts := mapM first_affected (dict_values cpus_infos) in
  ret (list_to_set firsts).

(** The apply of [use_governor]: [set_governor] on each cpu of [domains]. *)
Definition use_governor_apply (so : set_order) (governor : string)
    (kwargs : pydict string pyval) (domains : gset Z) : M (list unit) :=
  concurrently
    ((λ cpu, set_governor (PInt cpu) governor kwargs)
       <$> set_iter so domains).

(** [async with use_governor(governor, cpus, **kwargs): body] *)
Definition use_governor {A} (so : set_order) (governor : string)
    (cpus : option (list pyval)) (kwargs : pydict string pyval)
    (body : M A) : M A :=
  let* cpus_infos := use_governor_capture cpus in
  let* domains := use_governor_domains cpus_infos in
  use_governor_apply so governor kwargs domains;;
  try_finally body (use_governor_finally so cpus_infos domains).

(** *** iter_domains *)

(** The [while] loop of [iter_domains], given at most [fuel] iterations;
    the result is the sequence of the domains yielded, [None] when the
    iterations do not suffice. *)
Fixpoint iter_domains_loop (so : set_order) (fuel : nat) (cpus : gset Z)
    : M (option (list (list Z))) :=
  match fuel with
  | O => ret None
  | S fuel' =>
      if decide (cpus = ∅) then ret (Some [])
      else
        let* cpu :=
          match head (set_iter so cpus) with
          | Some cpu => ret cpu
          | None => raise (Exn (UserError "StopIteration") "" None)
          end in
        let* domain := get_related_cpus (PInt cpu) in
        let* rest :=
          iter_domains_loop so fuel' (cpus ∖ list_to_set domain) in
        ret ((domain ::.) <$> rest)
  end.

Definition iter_domains (so : set_order) (fuel : nat)
    : M (option (list (list Z))) :=
  let* n := gets (λ s, number_of_cpus (tgt s)) in
  let cpus : gset Z := list_to_set (Z.of_nat <$> seq 0 n) in
  iter_domains_loop so fuel cpus.

(** ** Example targets *)

(** A set order: the elements in ascending order. *)
Definition ascending : set_order.
Proof.
  refine (SetOrder (λ X, merge_sort Z.le (elements X)) _ _).
  - intros X. rewrite merge_sort_Permutation. apply NoDup_elements.
  - intros X x. rewrite merge_sort_Permutation. apply elem_of_elements.
Defined.

Definition policy_dir (policy : string) : string :=
  "/sys/devices/system/cpu/cpufreq/" +:+ policy +:+ "/".

Definition cpu_link (cpu policy : string) : string * string :=
  ("/sys/devices/system/cpu/" +:+ cpu +:+ "/cpufreq/", policy_dir policy).

(** The files of one cpufreq policy running [governor], whose tunable
    directory holds [tunables]. *)
Definition policy_files (policy cpus governor freq : string)
    (tunables : list (string * string)) : list (string * string) :=
  [ (policy_dir policy +:+ "scaling_governor", governor);
    (policy_dir policy +:+ "scaling_available_governors",
     "ondemand performance userspace interactive");
    (policy_dir policy +:+ "affected_cpus", cpus);
    (policy_dir policy +:+ "related_cpus", cpus);
    (policy_dir policy +:+ "scaling_cur_freq", freq);
    (policy_dir policy +:+ "cpuinfo_cur_freq", freq);
    (policy_dir policy +:+ "scaling_available_frequencies",
     "500000 1000000" +:+ nl);
    (policy_dir policy +:+ "scaling_setspeed", "<unsupported>") ]
  ++ (prod_map (λ t, policy_dir policy +:+ governor +:+ "/" +:+ t) id
        <$> tunables).

Definition policy_dirs (policy governor : string)
    (tunables : list (string * string)) : list (string * list string) :=
  [ (policy_dir policy +:+ governor, fst <$> tunables) ].

(** Four cpus in two policies, [cpu0 cpu1] and [cpu2 cpu3], all running
    [governor], at the frequencies [freq0] and [freq2]. *)
Definition two_policies (governor : string)
    (tunables : list (string * string)) (freq0 freq2 : string) : target :=
  Target
    (list_to_map
       (policy_files "policy0" "0 1" governor freq0 tunables
        ++ policy_files "policy2" "2 3" governor freq2 tunables))
    (list_to_map
       (policy_dirs "policy0" governor tunables
        ++ policy_dirs "policy2" governor tunables))
    [ cpu_link "cpu0" "policy0"; cpu_link "cpu1" "policy0";
      cpu_link "cpu2" "policy2"; cpu_link "cpu3" "policy2" ]
    [0; 1; 2; 3]%Z
    4
    ∅.

Definition initial (t : target) : state := State t ∅ ∅ ∅ ∅ [].

Definition ondemand_target : target :=
  two_policies "ondemand" [("sampling_rate", "10000"); ("up_threshold", "95")]
    "1000000" "500000".

Definition userspace_target : target :=
  two_policies "userspace" [] "1000000" "500000".

(** As [userspace_target], with the first policy at a frequency that is not
    in its [scaling_available_frequencies]. *)
Definition off_table_target : target :=
  two_policies "userspace" [] "750000" "500000".

Definition interactive_target : target :=
  two_policies "interactive" [("boostpulse", ""); ("hispeed_freq", "1000000")]
    "1000000" "500000".


(** The exception of a body that fails. *)
Definition body_error : exn := Exn (UserError "RuntimeError") "body failed" None.

(** The contexts chained behind an exception, nearest first. *)
Fixpoint context_chain (e : exn) : list exn :=
  match e with
  | Exn _ _ None => []
  | Exn _ _ (Some e') => e' :: context_chain e'
  end.

(** The governor a cpu reports on a target. *)
Definition governor_of (cpu : string) (s : state) : option string :=
  files (tgt s) !! realpath (tgt s) (cpu_cpufreq cpu "scaling_governor").

(** ** Runs and their accesses *)

(** Every access a run of [m] adds to the record satisfies [P]. *)
Definition emits {A} (P : access → Prop) (m : M A) : Prop :=
  ∀ s r s', m s = (r, s') →
    ∃ L, accesses s' = accesses s ++ L ∧ Forall P L.

Definition is_write (a : access) : Prop :=
  match a with Write _ _ => True | _ => False end.

(** The writes among the accesses, as (path, value) pairs. *)
Definition writes (L : list access) : list (string * string) :=
  omap (λ a, match a with Write p v => Some (p, v) | _ => None end) L.

(** The values written to [path], in order. *)
Definition written_to (path : string) (L : list access) : list string :=
  snd <$> filter (λ w, w.1 = path) (writes L).

(** The accesses of [set_governor(cpu, governor)] on a numbered cpu: the
    read behind [list_governors] and the write of [scaling_governor]. *)
Definition governor_access (a : access) : Prop :=
  ∃ cpu : Z,
    a = Read (cpu_cpufreq (cpu_name (PInt cpu)) "scaling_available_governors")
    ∨ ∃ governor,
        a = Write (cpu_cpufreq (cpu_name (PInt cpu)) "scaling_governor")
              governor.

(** The accesses of the tunable restores: any read, and writes to a
    governor's tunable or to [scaling_setspeed] only. *)
Definition tunable_access (a : access) : Prop :=
  match a with
  | Write path _ =>
      (∃ gov_per_cpu cpu governor tunable,
         path = tunable_path gov_per_cpu cpu governor tunable)
      ∨ (∃ cpu, path = cpu_cpufreq cpu "scaling_setspeed")
  | _ => True
  end.

(** Whether [set_governor_tunables] writes a valid tunable, given the
    [per_cpu] filter: it skips the tunable when [per_cpu] is set and differs
    from the governor's [gov_per_cpu]. *)
Definition selected (per_cpu : option bool) (gov_per_cpu : bool) : bool :=
  bool_decide (¬ (per_cpu ≠ None ∧ Some gov_per_cpu ≠ per_cpu)).

(** The affected-cpus lists captured for the targeted cpus describe
    frequency domains: two of them are the same list or share no cpu. *)
Definition consistent_domains (cpus_infos : pydict pyval cpu_info) : Prop :=
  Forall (λ i1,
    Forall (λ i2,
      info_domain i1 = info_domain i2
      ∨ Forall (λ cpu, cpu ∉ info_domain i2) (info_domain i1))
      (dict_values cpus_infos))
    (dict_values cpus_infos).

(** The writes of one [set_governor(cpu, governor, **kwargs)] that returns:
    the governor, then each tunable. *)
Definition set_governor_writes (cpu : Z) (governor : string)
    (kwargs : pydict string pyval) (w : list (string * string)) : Prop :=
  ∃ gov_per_cpu governor',
    w = (cpu_cpufreq (cpu_name (PInt cpu)) "scaling_governor", governor)
        :: ((λ kv, (tunable_path gov_per_cpu (cpu_name (PInt cpu)) governor'
                      kv.1, py_str kv.2)) <$> kwargs).

(** A run of [m] leaves the part [f] of the state as it was. *)
Definition preserves {A B} (f : state → B) (m : M A) : Prop :=
  ∀ s r s', m s = (r, s') → f s' = f s.

(** As [ondemand_target], but the second policy does not offer the
    "performance" governor. *)
Definition lopsided_target : target :=
  Target
    (<[policy_dir "policy2" +:+ "scaling_available_governors"
       := "ondemand userspace"]> (files ondemand_target))
    (directories ondemand_target) (links ondemand_target)
    (online_cpus ondemand_target) (number_of_cpus ondemand_target)
    (unreadable ondemand_target).

(** * Proofs *)

#[local] Set Warnings "-clear-no-such-hyp".

(** ** The accesses of the monad's operations *)

Section emits.
Context {A : Type} (P : access → Prop).

Lemma emits_ret (a : A) : emits P (ret a).
Proof.
  intros s r s' [= <- <-]. exists []. by rewrite app_nil_r.
Qed.

Lemma emits_raise (e : exn) : emits P (raise (A := A) e).
Proof.
  intros s r s' [= <- <-]. exists []. by rewrite app_nil_r.
Qed.

Lemma emits_lift_result (x : result A) : emits P (lift_result x).
Proof.
  intros s r s' [= <- <-]. exists []. by rewrite app_nil_r.
Qed.

Lemma emits_gets (f : state → A) : emits P (gets f).
Proof.
  intros s r s' [= <- <-]. exists []. by rewrite app_nil_r.
Qed.

Lemma emits_weaken (Q : access → Prop) (m : M A) :
  (∀ a, Q a → P a) → emits Q m → emits P m.
Proof.
  intros HQ Hm s r s' Hrun.
  destruct (Hm _ _ _ Hrun) as (L & -> & HL).
  exists L. split; [done|]. eapply Forall_impl; eauto.
Qed.

Lemma emits_handling (pending : exn) (m : M A) :
  emits P m → emits P (handling pending m).
Proof.
  intros Hm s r s'. unfold handling.
  destruct (m s) as [[a|e] s1] eqn:Hrun; intros [= <- <-];
    eapply Hm; eauto.
Qed.

Lemma emits_try_except (body : M A) cls (handler : exn → M A) :
  emits P body → (∀ e, emits P (handler e)) →
  emits P (try_except body cls handler).
Proof.
  intros Hb Hh s r s'. unfold try_except.
  destruct (body s) as [[a|e] s1] eqn:Hrun.
  - intros [= <- <-]. eapply Hb; eauto.
  - destruct (Hb _ _ _ Hrun) as (L1 & HL1 & HP1).
    case_decide.
    + intros Hrun'. destruct (Hh _ _ _ _ Hrun') as (L2 & HL2 & HP2).
      exists (L1 ++ L2). rewrite HL2, HL1, (assoc_L (++)).
      split; [done|]. by apply Forall_app.
    + intros [= <- <-]. eauto.
Qed.
End emits.

Lemma emits_modify P (f : state → state) :
  (∀ s, accesses (f s) = accesses s) → emits P (modify f).
Proof.
  intros Hf s r s' [= <- <-]. exists []. by rewrite Hf, app_nil_r.
Qed.

Lemma emits_track_access (P : access → Prop) a :
  P a → emits P (track_access a).
Proof.
  intros Ha s r s' [= <- <-]. exists [a]. split; [done|].
  by apply Forall_singleton.
Qed.

Lemma emits_bind {A B} P (m : M A) (k : A → M B) :
  emits P m → (∀ a, emits P (k a)) → emits P (bind m k).
Proof.
  intros Hm Hk s r s'. unfold bind.
  destruct (m s) as [[a|e] s1] eqn:Hrun.
  - intros Hrun'. destruct (Hm _ _ _ Hrun) as (L1 & HL1 & HP1).
    destruct (Hk _ _ _ _ Hrun') as (L2 & HL2 & HP2).
    exists (L1 ++ L2). rewrite HL2, HL1, (assoc_L (++)).
    split; [done|]. by apply Forall_app.
  - intros [= <- <-]. eapply Hm; eauto.
Qed.

Lemma emits_try_finally {A} P (body : M A) (final : M unit) :
  emits P body → emits P final → emits P (try_finally body final).
Proof.
  intros Hb Hf s r s'. unfold try_finally.
  destruct (body s) as [[a|e] s1] eqn:Hrun;
    destruct (Hb _ _ _ Hrun) as (L1 & HL1 & HP1).
  - destruct (final s1) as [[u|e] s2] eqn:Hrun'; intros [= <- <-];
      destruct (Hf _ _ _ Hrun') as (L2 & HL2 & HP2);
      exists (L1 ++ L2); rewrite HL2, HL1, (assoc_L (++));
      (split; [done|]); by apply Forall_app.
  - destruct (handling e final s1) as [[u|e'] s2] eqn:Hrun'; intros [= <- <-];
      destruct (emits_handling P e final Hf _ _ _ Hrun') as (L2 & HL2 & HP2);
      exists (L1 ++ L2); rewrite HL2, HL1, (assoc_L (++));
      (split; [done|]); by apply Forall_app.
Qed.

Lemma emits_mapM {A B} P (f : A → M B) (l : list A) :
  (∀ x, x ∈ l → emits P (f x)) → emits P (mapM f l).
Proof.
  induction l as [|x l IH]; intros Hf; simpl.
  - apply emits_ret.
  - apply emits_bind; [apply Hf; left|]. intros y.
    apply emits_bind; [|intros; apply emits_ret].
    apply IH. intros ??. apply Hf. by right.
Qed.

Lemma emits_concurrently {A} P (awaitables : list (M A)) :
  Forall (emits P) awaitables → emits P (concurrently awaitables).
Proof.
  induction 1 as [|task tasks Htask _ IH]; simpl.
  - apply emits_ret.
  - apply emits_bind; [done|]. intros a.
    apply emits_bind; [done|]. intros; apply emits_ret.
Qed.

Lemma emits_map_concurrently {K A} `{EqDecision K} P (f : K → M A) keys :
  (∀ k, k ∈ keys → emits P (f k)) → emits P (map_concurrently f keys).
Proof.
  intros Hf. unfold map_concurrently.
  apply emits_bind; [|intros; apply emits_ret].
  apply emits_concurrently, Forall_fmap, Forall_forall. exact Hf.
Qed.

Lemma emits_memoized_method {V} P (cache : state → gmap pyval V) set_cache
    (f : pyval → M V) arg :
  (∀ c s, accesses (set_cache c s) = accesses s) →
  emits P (f arg) → emits P (memoized_method cache set_cache f arg).
Proof.
  intros Hset Hf. unfold memoized_method.
  apply emits_bind; [apply emits_gets|]. intros c.
  destruct (c !! arg); [apply emits_ret|].
  apply emits_bind; [done|]. intros v.
  apply emits_bind; [apply emits_gets|]. intros c'.
  apply emits_bind; [by apply emits_modify|]. intros; apply emits_ret.
Qed.

(** Decomposes an [emits] goal along the monad's operations. *)
Ltac emits_step :=
  match goal with
  | |- emits _ (ret _) => apply emits_ret
  | |- emits _ (raise _) => apply emits_raise
  | |- emits _ (gets _) => apply emits_gets
  | |- emits _ (lift_result _) => apply emits_lift_result
  | |- emits _ (track_access _) => apply emits_track_access
  | |- emits _ (modify _) => apply emits_modify; done
  | |- emits _ (bind _ _) => apply emits_bind; [|intros ?]
  | |- emits _ (try_except _ _ _) => apply emits_try_except; [|intros ?]
  | |- emits _ (handling _ _) => apply emits_handling
  | |- emits _ (memoized_method _ _ _ _) =>
      apply emits_memoized_method; [done|]
  | |- emits _ (match ?x with _ => _ end) => destruct x
  | |- emits _ _ => progress cbv beta zeta
  end.

Ltac emits_go := repeat emits_step.

(** ** The accesses of the target's primitives *)

Section primitives.
Context (P : access → Prop).

Lemma emits_read_value path : P (Read path) → emits P (read_value path).
Proof. intros. unfold read_value. emits_go; done. Qed.

Lemma emits_read_int path : P (Read path) → emits P (read_int path).
Proof.
  intros. unfold read_int. emits_go. by apply emits_read_value.
Qed.

Lemma emits_write_value path value verify :
  P (Write path (py_str value)) → emits P (write_value path value verify).
Proof. intros. unfold write_value. emits_go; done. Qed.

Lemma emits_list_directory path :
  P (ListDir path) → emits P (list_directory path).
Proof. intros. unfold list_directory. emits_go; done. Qed.

Lemma emits_execute cmd : P (Execute cmd) → emits P (execute cmd).
Proof. intros. unfold execute. emits_go; done. Qed.

Lemma emits_file_exists path : emits P (file_exists path).
Proof. unfold file_exists. emits_go. Qed.

Lemma emits_list_online_cpus : emits P list_online_cpus.
Proof. unfold list_online_cpus. emits_go. Qed.

Lemma emits_ints_of l : emits P (ints_of l).
Proof. unfold ints_of. apply emits_mapM. intros. emits_go. Qed.

Lemma emits_dict_item {V} (d : pydict pyval V) k : emits P (dict_item d k).
Proof. unfold dict_item. emits_go. Qed.

Lemma emits_first_affected info : emits P (first_affected info).
Proof. unfold first_affected. emits_go. Qed.
End primitives.

(** ** The accesses of the module's methods *)

Lemma emits_list_governors cpu :
  emits (λ a, a = Read (cpu_cpufreq (cpu_name cpu) "scaling_available_governors"))
    (list_governors cpu).
Proof.
  unfold list_governors. emits_go. by apply emits_read_value.
Qed.

Lemma emits_get_governor cpu :
  emits (λ a, a = Read (cpu_cpufreq (cpu_name cpu) "scaling_governor"))
    (get_governor cpu).
Proof. unfold get_governor. emits_go. by apply emits_read_value. Qed.

Lemma emits__list_governor_tunables cpu governor :
  emits (λ a, ¬ is_write a) (_list_governor_tunables cpu governor).
Proof.
  unfold _list_governor_tunables. emits_go;
    try (apply emits_list_directory; by intros []).
  eapply emits_weaken; [|apply emits_get_governor]. by intros ? -> [].
Qed.

Lemma emits_set_tunables_loop cpu governor gov_per_cpu valid per_cpu kwargs :
  emits (λ a, ∃ tunable value,
           a = Write (tunable_path gov_per_cpu cpu governor tunable) value)
    (set_tunables_loop cpu governor gov_per_cpu valid per_cpu kwargs).
Proof.
  induction kwargs as [|[tunable value] kwargs IH]; simpl; emits_go; try done.
  apply emits_write_value. eauto.
Qed.

Lemma emits_set_governor_tunables cpu governor per_cpu kwargs :
  emits tunable_access (set_governor_tunables cpu governor per_cpu kwargs).
Proof.
  unfold set_governor_tunables. emits_go.
  - eapply emits_weaken; [|apply emits__list_governor_tunables].
    by intros [].
  - eapply emits_weaken; [|apply emits_set_tunables_loop].
    intros ? (?&?&->). left. eauto.
Qed.

Lemma emits_list_frequencies cpu :
  emits (λ a, ¬ is_write a) (list_frequencies cpu).
Proof.
  unfold list_frequencies. emits_go;
    first [ apply emits_ints_of | apply emits_file_exists
          | apply emits_execute | apply emits_read_value ];
    by intros [].
Qed.

Lemma emits_get_frequency cpu cpuinfo :
  emits (λ a, ¬ is_write a) (get_frequency cpu cpuinfo).
Proof. unfold get_frequency. emits_go. apply emits_read_int. by intros []. Qed.

Lemma emits_set_frequency cpu frequency exact :
  emits tunable_access (set_frequency cpu frequency exact).
Proof.
  unfold set_frequency. emits_go.
  - eapply emits_weaken; [|apply emits_list_frequencies]. by intros [].
  - eapply emits_weaken; [|apply emits_get_governor]. by intros ? ->.
  - apply emits_write_value. right. eauto.
  - eapply emits_weaken; [|apply emits_get_frequency]. by intros [].
Qed.

Lemma emits_set_governor_plain (cpu : Z) governor :
  emits governor_access (set_governor (PInt cpu) governor []).
Proof.
  unfold set_governor. emits_go.
  - eapply emits_weaken; [|apply emits_list_governors].
    intros ? ->. exists cpu. by left.
  - apply emits_write_value. exists cpu. right. eauto.
  - apply emits_ret.
Qed.

Lemma emits_bind_run {A B} P (m : M A) (k : A → M B) :
  emits P m → (∀ a s s', m s = (Ok a, s') → emits P (k a)) →
  emits P (bind m k).
Proof.
  intros Hm Hk s r s'. unfold bind.
  destruct (m s) as [[a|e] s1] eqn:Hrun.
  - intros Hrun'. destruct (Hm _ _ _ Hrun) as (L1 & HL1 & HP1).
    destruct (Hk _ _ _ Hrun _ _ _ Hrun') as (L2 & HL2 & HP2).
    exists (L1 ++ L2). rewrite HL2, HL1, (assoc_L (++)).
    split; [done|]. by apply Forall_app.
  - intros [= <- <-]. eapply Hm; eauto.
Qed.

(** Each result of a [mapM] that returns is the result of a run of [f] on
    an element of the list. *)
Lemma mapM_results {A B} (f : A → M B) l s ys s' :
  mapM f l s = (Ok ys, s') →
  Forall (λ y, ∃ x s1 s2, x ∈ l ∧ f x s1 = (Ok y, s2)) ys.
Proof.
  revert s ys s'. induction l as [|x l IH]; intros s ys s'; simpl.
  - intros [= <- <-]. constructor.
  - unfold bind at 1. destruct (f x s) as [[y|e] s1] eqn:Hx; [|done].
    unfold bind at 1. destruct (mapM f l s1) as [[ys'|e] s2] eqn:Hl; [|done].
    intros [= <- <-]. constructor.
    + exists x, s, s1. split; [left|done].
    + eapply Forall_impl; [by eapply IH|].
      intros y' (x' & t1 & t2 & ? & ?). exists x', t1, t2.
      split; [by right|done].
Qed.

Lemma emits_restore_governors so cpus_infos domains :
  emits governor_access (restore_governors so cpus_infos domains).
Proof.
  unfold restore_governors. apply emits_bind_run.
  - apply emits_mapM. intros cpu _. emits_go. apply emits_dict_item.
  - intros tasks s s' Hrun. apply emits_concurrently.
    eapply Forall_impl; [by eapply mapM_results|].
    intros task (cpu & s1 & s2 & _ & Htask). revert Htask.
    unfold bind. destruct (dict_item _ _ _) as [[info|?] ?]; [|done].
    intros [= <- _]. apply emits_set_governor_plain.
Qed.

Lemma emits_set_per_cpu_tunables cpus_infos cpu :
  emits tunable_access (set_per_cpu_tunables cpus_infos cpu).
Proof.
  unfold set_per_cpu_tunables. emits_go.
  - apply emits_dict_item.
  - apply emits_set_governor_tunables.
  - apply emits_set_frequency.
Qed.

Lemma emits_restore_tunables so cpus_infos domains :
  emits tunable_access
    (concurrently
       [concurrently (set_per_cpu_tunables cpus_infos <$> set_iter so domains);
        concurrently
          ((λ item,
              set_governor_tunables item.2.1 (Some item.1) (Some false)
                (as_kwargs item.2.2))
             <$> global_tunables_dict cpus_infos)]).
Proof.
  apply emits_concurrently. repeat constructor.
  - apply emits_concurrently, Forall_fmap, Forall_forall. intros cpu _.
    apply emits_set_per_cpu_tunables.
  - apply emits_concurrently, Forall_fmap, Forall_forall. intros item _.
    apply emits_set_governor_tunables.
Qed.

(** ** The claims *)

(** C10. [set_governor_tunables] called without tunables returns at once:
    for every cpu, governor argument and [per_cpu] filter the call returns
    [None] and leaves the whole state as it was: the files of the target,
    the caches, and the record of accesses, so that nothing was read,
    written or validated, whatever the governor name. *)
Theorem set_governor_tunables_without_kwargs cpu governor per_cpu s :
  set_governor_tunables cpu governor per_cpu [] s = (Ok tt, s).
Proof. reflexivity. Qed.

(** C7. In the [finally] block of [use_governor] the accesses split in two
    consecutive runs: first those of the governor restores, which are reads
    of [scaling_available_governors] and writes of [scaling_governor] only,
    and after them those of the tunable restores (the per-cpu batch and the
    global batch), whose writes go to tunables and [scaling_setspeed] only.
    The second run is empty unless all the governor restores have
    returned. *)
Theorem governors_restored_before_tunables so cpus_infos domains s :
  ∃ L1 L2,
    accesses (restore_governors so cpus_infos domains s).2 = accesses s ++ L1
    ∧ accesses (use_governor_finally so cpus_infos domains s).2
      = accesses s ++ L1 ++ L2
    ∧ Forall governor_access L1
    ∧ Forall tunable_access L2
    ∧ (L2 ≠ [] →
       ∃ u, (restore_governors so cpus_infos domains s).1 = Ok u).
Proof.
  unfold use_governor_finally, bind at 1.
  destruct (restore_governors so cpus_infos domains s) as [[u|e] s1] eqn:Hgov;
    destruct (emits_restore_governors _ _ _ _ _ _ Hgov) as (L1 & HL1 & HP1).
  - destruct (bind _ _ s1) as [r s2] eqn:Htun.
    assert (∃ L2, accesses s2 = accesses s1 ++ L2 ∧ Forall tunable_access L2)
      as (L2 & HL2 & HP2).
    { eapply (emits_bind tunable_access); [..|exact Htun].
      - apply emits_restore_tunables.
      - intros. apply emits_ret. }
    exists L1, L2. simpl. rewrite HL2, HL1, (assoc_L (++)). eauto 10.
  - exists L1, []. simpl. rewrite app_nil_r. by repeat split.
Qed.

(** ** Dictionaries *)

Section pydict_facts.
Context {K V : Type} `{EqDecision K}.
Implicit Types (d : pydict K V) (k : K) (v : V).




Lemma dict_get_Some_keys k v d : dict_get k d = Some v → k ∈ dict_keys d.
Proof.
  unfold dict_keys. induction d as [|[k0 v0] d IH]; simpl; [done|].
  case_decide; subst; [left|right; auto].
Qed.
End pydict_facts.


(** ** Writing tunables *)

Lemma write_value_accesses path value verify s r s' :
  write_value path value verify s = (r, s') →
  accesses s' = accesses s ++ [Write path (py_str value)].
Proof.
  unfold write_value, bind, track_access, modify, gets; simpl.
  destruct (files _ !! _); simpl.
  - destruct (_ && bool_decide (_ ∈ _)); [by intros [= <- <-]|].
    destruct (_ && _); by intros [= <- <-].
  - by intros [= <- <-].
Qed.

(** The loop over [pre ++ rest] is the loop over [pre] followed, when it
    returns, by the loop over [rest]. *)
Lemma set_tunables_loop_app cpu governor gov_per_cpu valid per_cpu pre rest s :
  set_tunables_loop cpu governor gov_per_cpu valid per_cpu (pre ++ rest) s
  = bind (set_tunables_loop cpu governor gov_per_cpu valid per_cpu pre)
      (λ _, set_tunables_loop cpu governor gov_per_cpu valid per_cpu rest) s.
Proof.
  revert s. induction pre as [|[tunable value] pre IH]; intros s.
  - done.
  - simpl. case_decide; [|done]. case_decide.
    + apply IH.
    + unfold bind at 1 2 3.
      destruct (write_value _ _ _ s) as [[[]|?] ?]; [|done]. apply IH.
Qed.

(** A loop that returns has written, in order, each selected tunable. *)
Lemma set_tunables_loop_Ok cpu governor gov_per_cpu valid per_cpu kwargs s s' :
  set_tunables_loop cpu governor gov_per_cpu valid per_cpu kwargs s
  = (Ok tt, s') →
  Forall (λ kv, kv.1 ∈ valid) kwargs
  ∧ accesses s' = accesses s ++
      if selected per_cpu gov_per_cpu then
        (λ kv, Write (tunable_path gov_per_cpu cpu governor kv.1) (py_str kv.2))
          <$> kwargs
      else [].
Proof.
  revert s. induction kwargs as [|[tunable value] kwargs IH]; intros s; simpl.
  - intros [= <-]. split; [done|]. destruct (selected _ _); by rewrite app_nil_r.
  - case_decide as Hvalid; [|done].
    destruct (decide (per_cpu ≠ None ∧ Some gov_per_cpu ≠ per_cpu))
      as [Hsel|Hsel].
    + intros Hrun. destruct (IH _ Hrun) as [Hall Hacc]. split; [by constructor|].
      rewrite Hacc. unfold selected. by rewrite !bool_decide_eq_false_2 by tauto.
    + unfold bind at 1.
      destruct (write_value _ _ _ s) as [[[]|?] s1] eqn:Hw; [|done].
      intros Hrun. destruct (IH _ Hrun) as [Hall Hacc]. split; [by constructor|].
      rewrite Hacc, (write_value_accesses _ _ _ _ _ _ Hw). unfold selected.
      rewrite !bool_decide_eq_true_2 by done. by rewrite <-(assoc_L (++)).
Qed.

(** A run written with its result and the state it leaves. *)
Lemma run_eq {A} (m : M A) s r : (m s).1 = r → m s = (r, (m s).2).
Proof. intros <-. by destruct (m s). Qed.

Lemma writes_app L1 L2 : writes (L1 ++ L2) = writes L1 ++ writes L2.
Proof. apply omap_app. Qed.

Lemma writes_fmap_Write {A} (p v : A → string) (l : list A) :
  writes ((λ x, Write (p x) (v x)) <$> l) = (λ x, (p x, v x)) <$> l.
Proof. induction l; simpl; [done|]. by f_equal. Qed.

Lemma emits_no_writes {A} (m : M A) s r s' :
  emits (λ a, ¬ is_write a) m → m s = (r, s') →
  writes (accesses s') = writes (accesses s).
Proof.
  intros Hm Hrun. destruct (Hm _ _ _ Hrun) as (L & -> & HL).
  rewrite writes_app.
  assert (writes L = []) as ->; [|by rewrite app_nil_r].
  induction HL as [|[] L Ha _ IH]; simpl; done.
Qed.

(** C6. A call of [set_governor_tunables] whose tunables hold a name that is
    not in the governor's list of valid tunables raises [TargetStableError];
    the message names the tunable, the governor, the cpu and the valid
    tunables. The tunables [pre] that come before the invalid name have been
    handled as in a call of their own: the state the failing call leaves is
    the state the loop over [pre] has reached, each selected tunable of
    [pre] has been written, and nothing is undone. *)
Theorem set_governor_tunables_invalid_name cpu governor per_cpu pre tunable
    value post s g gov_per_cpu valid s1 s2 :
  _list_governor_tunables (PStr (cpu_name cpu)) governor s
  = (Ok (g, gov_per_cpu, valid), s1) →
  set_tunables_loop (cpu_name cpu) g gov_per_cpu valid per_cpu pre s1
  = (Ok tt, s2) →
  tunable ∉ valid →
  set_governor_tunables cpu governor per_cpu (pre ++ (tunable, value) :: post) s
  = (Raise (Exn TargetStableError
       (unexpected_tunable_message tunable g (cpu_name cpu) valid) None), s2)
  ∧ (pre ≠ [] → set_governor_tunables cpu governor per_cpu pre s = (Ok tt, s2))
  ∧ writes (accesses s2) = writes (accesses s) ++
      if selected per_cpu gov_per_cpu then
        (λ kv, (tunable_path gov_per_cpu (cpu_name cpu) g kv.1, py_str kv.2))
          <$> pre
      else [].
Proof.
  intros Hlist Hpre Hinvalid. split; [|split].
  - unfold set_governor_tunables.
    destruct (pre ++ _) as [|kv kwargs] eqn:Hkwargs.
    { by destruct pre. }
    rewrite <-Hkwargs. unfold bind at 1. rewrite Hlist.
    rewrite set_tunables_loop_app. unfold bind. rewrite Hpre. simpl.
    by rewrite decide_False.
  - intros Hne. unfold set_governor_tunables. destruct pre; [done|].
    unfold bind. by rewrite Hlist.
  - destruct (set_tunables_loop_Ok _ _ _ _ _ _ _ _ Hpre) as [_ ->].
    rewrite writes_app.
    rewrite (emits_no_writes _ _ _ _ (emits__list_governor_tunables _ _) Hlist).
    f_equal. destruct (selected _ _); [|done].
    apply (writes_fmap_Write
             (λ kv, tunable_path gov_per_cpu (cpu_name cpu) g kv.1)
             (λ kv, py_str kv.2)).
Qed.

Lemma set_governor_tunables_invalid_name_witness :
  let s := initial interactive_target in
  ∃ s2,
    set_governor_tunables (PInt 0) (Some "interactive") None
      ([("hispeed_freq", PInt 800000)] ++ ("nope", PInt 1)
       :: [("boostpulse", PInt 1)]) s
    = (Raise (Exn TargetStableError
         ("Unexpected tunable nope for governor interactive on cpu0." +:+ nl
          +:+ "Available tunables are: ['boostpulse', 'hispeed_freq']") None),
       s2)
    ∧ writes (accesses s2)
      = [("/sys/devices/system/cpu/cpu0/cpufreq/interactive/hispeed_freq",
          "800000")].
Proof.
  intros s.
  pose (s1 := (_list_governor_tunables (PStr "cpu0") (Some "interactive") s).2).
  pose (s2 := (set_tunables_loop "cpu0" "interactive" true
                 ["boostpulse"; "hispeed_freq"] None
                 [("hispeed_freq", PInt 800000)] s1).2).
  exists s2.
  destruct (set_governor_tunables_invalid_name (PInt 0) (Some "interactive")
    None [("hispeed_freq", PInt 800000)] "nope" (PInt 1)
    [("boostpulse", PInt 1)] s "interactive" true
    ["boostpulse"; "hispeed_freq"] s1 s2) as (Hraise & _ & Hwrites).
  - apply run_eq. vm_compute. reflexivity.
  - apply run_eq. vm_compute. reflexivity.
  - apply (bool_decide_unpack _). vm_compute. exact I.
  - split; [exact Hraise|]. rewrite Hwrites. vm_compute. reflexivity.
Defined.

(** ** Reading tunables *)







(** ** The scope of use_governor *)

Lemma with_context_cls pending e : exn_cls (with_context pending e) = exn_cls e.
Proof. by destruct e as [? ? [?|]]. Qed.

Lemma with_context_msg pending e : exn_msg (with_context pending e) = exn_msg e.
Proof. by destruct e as [? ? [?|]]. Qed.

Lemma with_context_chain pending : ∀ e,
  ∃ chain, context_chain (with_context pending e)
           = chain ++ pending :: context_chain pending.
Proof.
  fix IH 1. intros [c m [e'|]]; simpl.
  - destruct (IH e') as [chain Hchain]. exists (with_context pending e' :: chain).
    by rewrite Hchain.
  - by exists [].
Qed.

(** [use_governor] once the capture and the apply have returned: the body
    runs, then the [finally] block runs from the state the body has left,
    whether the body has returned or raised. *)
Lemma use_governor_entered {A} so governor cpus kwargs (body : M A)
    s cpus_infos s1 domains s2 us s3 :
  use_governor_capture cpus s = (Ok cpus_infos, s1) →
  use_governor_domains cpus_infos s1 = (Ok domains, s2) →
  use_governor_apply so governor kwargs domains s2 = (Ok us, s3) →
  use_governor so governor cpus kwargs body s
  = try_finally body (use_governor_finally so cpus_infos domains) s3.
Proof.
  intros Hcapture Hdomains Happly. unfold use_governor.
  unfold bind at 1. rewrite Hcapture.
  unfold bind at 1. rewrite Hdomains.
  unfold bind at 1. by rewrite Happly.
Qed.

(** The [finally] block runs on every exit of the body: the state
    [use_governor] leaves is the one the block leaves when run from the
    body's final state. *)
Lemma use_governor_finally_runs {A} so governor cpus kwargs (body : M A)
    s cpus_infos s1 domains s2 us s3 r s4 :
  use_governor_capture cpus s = (Ok cpus_infos, s1) →
  use_governor_domains cpus_infos s1 = (Ok domains, s2) →
  use_governor_apply so governor kwargs domains s2 = (Ok us, s3) →
  body s3 = (r, s4) →
  (use_governor so governor cpus kwargs body s).2
  = (use_governor_finally so cpus_infos domains s4).2.
Proof.
  intros Hcapture Hdomains Happly Hbody.
  rewrite (use_governor_entered _ _ _ _ _ _ _ _ _ _ _ _
             Hcapture Hdomains Happly).
  unfold try_finally, handling. rewrite Hbody.
  destruct r; by destruct (use_governor_finally _ _ _ s4) as [[?|?] ?].
Qed.

(** C3, as the code has it. When the body raises [e1] and the [finally]
    block then raises [e2], [use_governor] raises the exception of the
    [finally] block: it has the class and the message of [e2], and the
    body's exception [e1] is kept only in its chain of contexts. *)
Theorem restore_exception_replaces_body_exception {A} so governor cpus kwargs
    (body : M A) s cpus_infos s1 domains s2 us s3 e1 s4 e2 s5 :
  use_governor_capture cpus s = (Ok cpus_infos, s1) →
  use_governor_domains cpus_infos s1 = (Ok domains, s2) →
  use_governor_apply so governor kwargs domains s2 = (Ok us, s3) →
  body s3 = (Raise e1, s4) →
  use_governor_finally so cpus_infos domains s4 = (Raise e2, s5) →
  use_governor so governor cpus kwargs body s
  = (Raise (with_context e1 e2), s5)
  ∧ exn_cls (with_context e1 e2) = exn_cls e2
  ∧ exn_msg (with_context e1 e2) = exn_msg e2
  ∧ e1 ∈ context_chain (with_context e1 e2).
Proof.
  intros Hcapture Hdomains Happly Hbody Hfinally.
  rewrite (use_governor_entered _ _ _ _ _ _ _ _ _ _ _ _
             Hcapture Hdomains Happly).
  unfold try_finally, handling. rewrite Hbody, Hfinally.
  split; [done|]. split; [apply with_context_cls|].
  split; [apply with_context_msg|].
  destruct (with_context_chain e1 e2) as [chain ->].
  apply elem_of_app. right. left.
Qed.

(** C3, as the claim has it, fails: on a target whose first policy runs
    "userspace" at a frequency outside its table, the body raises and the
    restore raises in [set_frequency]; the caller gets the
    [TargetStableError] of the restore, the body's error being its
    context. *)
Lemma body_exception_not_surfaced :
  (use_governor ascending "performance" None [] (raise (A := unit) body_error)
     (initial off_table_target)).1
  = Raise (Exn TargetStableError
      ("Can't set cpu0 frequency to 750000" +:+ nl
       +:+ "must be in [500000, 1000000]") (Some body_error)).
Proof. vm_compute. reflexivity. Qed.

Lemma restore_exception_replaces_body_exception_witness :
  ∃ e s5,
    use_governor ascending "performance" None [] (raise (A := unit) body_error)
      (initial off_table_target) = (Raise e, s5)
    ∧ exn_cls e = TargetStableError
    ∧ body_error ∈ context_chain e.
Proof.
  edestruct (restore_exception_replaces_body_exception (A := unit) ascending
    "performance" None [] (raise body_error) (initial off_table_target))
    as (Hrun & Hcls & _ & Hchain).
  - apply run_eq. vm_compute. reflexivity.
  - apply run_eq. vm_compute. reflexivity.
  - apply run_eq. vm_compute. reflexivity.
  - reflexivity.
  - apply run_eq. vm_compute. reflexivity.
  - eexists _, _. split; [exact Hrun|]. split; [exact Hcls|exact Hchain].
Defined.

(** C1, at a failing input. On the target with the policies [cpu0 cpu1]
    and [cpu2 cpu3] under "ondemand", [use_governor("performance",
    cpus=[1])] with a body that returns: cpu1's domain is set to
    "performance" through cpu0, its first affected cpu; the [finally] block
    then looks up [cpus_infos[0]], which was never captured, and raises
    [KeyError]; no restoring write is made and cpu1 is left on
    "performance". *)
Theorem use_governor_on_subset_not_restored :
  let s := initial ondemand_target in
  let r := use_governor ascending "performance" (Some [PInt 1]) [] (ret tt) s in
  governor_of "cpu1" s = Some "ondemand"
  ∧ r.1 = Raise (Exn KeyError "0" None)
  ∧ governor_of "cpu1" r.2 = Some "performance"
  ∧ writes (accesses r.2)
    = [("/sys/devices/system/cpu/cpu0/cpufreq/scaling_governor",
        "performance")].
Proof. vm_compute. done. Qed.

(** C2, at a failing input. The same call with a body that raises: the
    [finally] block does run, but it raises [KeyError] at its first lookup,
    before any restoring write; cpu1 is left on "performance" and the
    caller gets the [KeyError], with the body's exception as its context. *)
Theorem use_governor_on_subset_body_raises :
  let s := initial ondemand_target in
  let r :=
    use_governor ascending "performance" (Some [PInt 1]) []
      (raise (A := unit) body_error) s in
  governor_of "cpu1" s = Some "ondemand"
  ∧ r.1 = Raise (Exn KeyError "0" (Some body_error))
  ∧ governor_of "cpu1" r.2 = Some "performance"
  ∧ writes (accesses r.2)
    = [("/sys/devices/system/cpu/cpu0/cpufreq/scaling_governor",
        "performance")].
Proof. vm_compute. done. Qed.

(** ** The apply of use_governor *)

Lemma write_value_writes path value verify s r s' :
  write_value path value verify s = (r, s') →
  writes (accesses s') = writes (accesses s) ++ [(path, py_str value)].
Proof.
  intros Hw. by rewrite (write_value_accesses _ _ _ _ _ _ Hw), writes_app.
Qed.

Lemma set_governor_tunables_Ok_writes cpu governor kwargs s s' :
  set_governor_tunables cpu (Some governor) None kwargs s = (Ok tt, s') →
  ∃ gov_per_cpu governor',
    writes (accesses s') = writes (accesses s) ++
      ((λ kv, (tunable_path gov_per_cpu (cpu_name cpu) governor' kv.1,
               py_str kv.2)) <$> kwargs).
Proof.
  unfold set_governor_tunables. destruct kwargs as [|kv kwargs].
  { intros [= <-]. exists true, "". by rewrite app_nil_r. }
  unfold bind at 1.
  destruct (_list_governor_tunables _ _ s) as [[[[g pc] valid]|?] s1] eqn:Hlist;
    [|done].
  intros Hloop. apply set_tunables_loop_Ok in Hloop as [_ Hloop].
  exists pc, g. rewrite Hloop, writes_app.
  rewrite (emits_no_writes _ _ _ _ (emits__list_governor_tunables _ _) Hlist).
  f_equal. unfold selected. rewrite bool_decide_eq_true_2 by (by intros [? _]).
  apply (writes_fmap_Write
           (λ kv, tunable_path pc (cpu_name cpu) g kv.1) (λ kv, py_str kv.2)).
Qed.

Lemma set_governor_Ok_writes (cpu : Z) governor kwargs s u s' :
  set_governor (PInt cpu) governor kwargs s = (Ok u, s') →
  ∃ w, writes (accesses s') = writes (accesses s) ++ w
       ∧ set_governor_writes cpu governor kwargs w.
Proof.
  unfold set_governor, bind at 1.
  destruct (list_governors _ s) as [[supported|?] s1] eqn:Hlist; [|done].
  case_decide; [|done]. unfold bind at 1.
  destruct (write_value _ _ _ s1) as [[[]|?] s2] eqn:Hwrite; [|done].
  destruct u. intros Htun.
  apply set_governor_tunables_Ok_writes in Htun as (pc & g & Htun).
  eexists. split; [|by exists pc, g].
  rewrite Htun, (write_value_writes _ _ _ _ _ _ Hwrite).
  assert (emits (λ a, ¬ is_write a)
            (list_governors (PStr (cpu_name (PInt cpu))))) as Hreads.
  { eapply emits_weaken; [|apply emits_list_governors]. by intros ? -> []. }
  rewrite (emits_no_writes _ _ _ _ Hreads Hlist).
  by rewrite <-(assoc_L (++)).
Qed.

(** The writes of tasks awaited together, when all return: those of each
    task, in the order of the tasks. *)
Lemma concurrently_fmap_writes {A B} (f : A → M B)
    (Q : A → list (string * string) → Prop) l s us s' :
  (∀ x s1 u s2, f x s1 = (Ok u, s2) →
     ∃ w, writes (accesses s2) = writes (accesses s1) ++ w ∧ Q x w) →
  concurrently (f <$> l) s = (Ok us, s') →
  ∃ ws, Forall2 Q l ws
        ∧ writes (accesses s') = writes (accesses s) ++ concat ws.
Proof.
  intros Hf. revert s us. induction l as [|x l IH]; intros s us; simpl.
  - intros [= <- <-]. exists []. split; [done|]. by rewrite app_nil_r.
  - unfold bind at 1. destruct (f x s) as [[u|?] s1] eqn:Hx; [|done].
    unfold bind at 1.
    destruct (concurrently _ s1) as [[us'|?] s2] eqn:Hl; [|done].
    intros [= <- <-].
    destruct (Hf _ _ _ _ Hx) as (w & Hw & HQ).
    destruct (IH _ _ Hl) as (ws & Hws & Hacc).
    exists (w :: ws). split; [by constructor|].
    simpl. by rewrite Hacc, Hw, (assoc_L (++)).
Qed.

Lemma mapM_first_affected cpus_infos_values s firsts s' :
  mapM first_affected cpus_infos_values s = (Ok firsts, s') →
  Forall2 (λ info first, head (info_domain info) = Some first)
    cpus_infos_values firsts.
Proof.
  revert s firsts. induction cpus_infos_values as [|info l IH];
    intros s firsts; simpl.
  - intros [= <- <-]. constructor.
  - unfold bind at 1, first_affected at 1.
    destruct (info_domain info) as [|first ?] eqn:Hdomain; [done|]. simpl.
    unfold bind at 1. destruct (mapM first_affected l s) as [[ys|?] s1] eqn:Hl;
      [|done].
    intros [= <- <-]. constructor; [by rewrite Hdomain|by eapply IH].
Qed.

Lemma dict_get_Some_values {K V} `{EqDecision K} (d : pydict K V) k v :
  dict_get k d = Some v → v ∈ dict_values d.
Proof.
  unfold dict_values. induction d as [|[k0 v0] d IH]; simpl; [done|].
  case_decide; [intros [= ->]; left|right; auto].
Qed.

Lemma filter_unique {A} (P : A → Prop) `{∀ x, Decision (P x)} l x :
  NoDup l → x ∈ l → P x → (∀ y, y ∈ l → P y → y = x) → filter P l = [x].
Proof.
  induction 1 as [|y l Hy Hl IH]; [by intros ?%elem_of_nil|].
  intros Hx HP Huniq. apply elem_of_cons in Hx as [<-|Hx].
  - rewrite filter_cons_True by done. f_equal.
    destruct (filter P l) as [|z k] eqn:Hfilter; [done|].
    assert (z ∈ filter P l) as [HPz Hz]%list_elem_of_filter
      by (rewrite Hfilter; left).
    destruct Hy. rewrite <-(Huniq z); [done|by right|done].
  - rewrite filter_cons_False.
    + apply IH; [done..|]. intros z ??. apply Huniq; [by right|done].
    + intros HPy. destruct Hy. rewrite (Huniq y); [done|left|done].
Qed.

Lemma Forall2_elem_l {A B} (R : A → B → Prop) l k x :
  Forall2 R l k → x ∈ l → ∃ y, y ∈ k ∧ R x y.
Proof.
  induction 1 as [|x' y' l k HR _ IH]; [by intros ?%elem_of_nil|].
  intros [->|Hx]%elem_of_cons.
  - exists y'. split; [left|done].
  - destruct (IH Hx) as (y & ? & ?). exists y. split; [by right|done].
Qed.

Lemma Forall2_elem_r {A B} (R : A → B → Prop) l k y :
  Forall2 R l k → y ∈ k → ∃ x, x ∈ l ∧ R x y.
Proof.
  induction 1 as [|x' y' l k HR _ IH]; [by intros ?%elem_of_nil|].
  intros [->|Hy]%elem_of_cons.
  - exists x'. split; [left|done].
  - destruct (IH Hy) as (x & ? & ?). exists x. split; [by right|done].
Qed.

(** The cpus of [domains] are the first affected cpus of the captured
    infos. *)
Lemma use_governor_domains_Ok cpus_infos s domains s' :
  use_governor_domains cpus_infos s = (Ok domains, s') →
  (∀ info, info ∈ dict_values cpus_infos →
     ∃ rep, head (info_domain info) = Some rep ∧ rep ∈ domains)
  ∧ (∀ rep, rep ∈ domains →
       ∃ info, info ∈ dict_values cpus_infos
               ∧ head (info_domain info) = Some rep).
Proof.
  unfold use_governor_domains, bind.
  destruct (mapM _ _ s) as [[firsts|?] s1] eqn:Hfirsts; [|done].
  intros [= <- <-]. apply mapM_first_affected in Hfirsts. split.
  - intros info Hinfo.
    destruct (Forall2_elem_l _ _ _ _ Hfirsts Hinfo) as (rep & ? & ?).
    exists rep. split; [done|]. by apply elem_of_list_to_set.
  - intros rep Hrep%elem_of_list_to_set.
    destruct (Forall2_elem_r _ _ _ _ Hfirsts Hrep) as (info & ? & ?). eauto.
Qed.

(** X5. In the apply of [use_governor], [set_governor] is called on the
    cpus of [domains], each once. When the apply returns, the writes it has
    added are, in whatever order the coordinator has interleaved the calls,
    those of one [set_governor] for each of these cpus: one write of the new
    governor to that cpu's [scaling_governor] and the writes of the tunables
    given. The cpus of [domains] are pairwise different, and, the captured
    affected-cpus lists being frequency domains, the domain of each
    targeted cpu holds exactly one of them: the first entry of its
    affected-cpus list. *)
Theorem one_set_governor_per_domain so governor kwargs cpus_infos s0 domains
    s1 us s2 :
  use_governor_domains cpus_infos s0 = (Ok domains, s1) →
  use_governor_apply so governor kwargs domains s1 = (Ok us, s2) →
  consistent_domains cpus_infos →
  (∃ ws added,
     Forall2 (λ cpu w, set_governor_writes cpu governor kwargs w)
       (set_iter so domains) ws
     ∧ writes (accesses s2) = writes (accesses s1) ++ added
     ∧ added ≡ₚ concat ws)
  ∧ NoDup (set_iter so domains)
  ∧ ∀ cpu info, dict_get cpu cpus_infos = Some info →
      ∃ rep, head (info_domain info) = Some rep
             ∧ filter (λ c, c ∈ info_domain info) (set_iter so domains)
               = [rep].
Proof.
  intros Hdomains Happly Hconsistent. split; [|split].
  - destruct (concurrently_fmap_writes
                (λ cpu, set_governor (PInt cpu) governor kwargs)
                (λ cpu w, set_governor_writes cpu governor kwargs w)
                (set_iter so domains) s1 us s2) as (ws & Hws & Hwrites);
      [|exact Happly|by exists ws, (concat ws)].
    intros cpu t1 u t2 Hrun. by eapply set_governor_Ok_writes.
  - apply set_iter_NoDup.
  - intros cpu info Hinfo%dict_get_Some_values.
    destruct (use_governor_domains_Ok _ _ _ _ Hdomains) as [Hreps Hfirsts].
    destruct (Hreps _ Hinfo) as (rep & Hhead & Hrep).
    exists rep. split; [done|].
    apply filter_unique.
    + apply set_iter_NoDup.
    + by apply set_iter_elem.
    + by eapply head_Some_elem_of.
    + intros c Hc%set_iter_elem Hin.
      destruct (Hfirsts _ Hc) as (info' & Hinfo' & Hhead').
      unfold consistent_domains in Hconsistent.
      rewrite Forall_forall in Hconsistent.
      specialize (Hconsistent _ Hinfo). rewrite Forall_forall in Hconsistent.
      destruct (Hconsistent _ Hinfo') as [Heq|Hdisjoint].
      * rewrite Heq in Hhead. congruence.
      * rewrite Forall_forall in Hdisjoint. destruct (Hdisjoint _ Hin).
        by eapply head_Some_elem_of.
Qed.

Lemma one_set_governor_per_domain_witness :
  let info01 :=
    CpuInfo [0; 1]%Z "ondemand"
      [("sampling_rate", "10000"); ("up_threshold", "95")] 1000000 in
  let info23 :=
    CpuInfo [2; 3]%Z "ondemand"
      [("sampling_rate", "10000"); ("up_threshold", "95")] 500000 in
  let cpus_infos :=
    [(PInt 0, info01); (PInt 1, info01); (PInt 2, info23); (PInt 3, info23)] in
  ∃ domains,
    NoDup (set_iter ascending domains)
    ∧ ∀ cpu info, dict_get cpu cpus_infos = Some info →
        ∃ rep, head (info_domain info) = Some rep
               ∧ filter (λ c, c ∈ info_domain info) (set_iter ascending domains)
                 = [rep].
Proof.
  intros info01 info23 cpus_infos.
  edestruct (one_set_governor_per_domain ascending "performance" []
               cpus_infos (initial ondemand_target)) as (_ & Hnodup & Hone).
  - apply run_eq. vm_compute. reflexivity.
  - apply run_eq. vm_compute. reflexivity.
  - apply (bool_decide_unpack _). vm_compute. exact I.
  - eexists. split; [exact Hnodup|exact Hone].
Defined.

(** * Further properties of the module *)

(** ** What a run leaves unchanged *)

Section preserves.
Context {B : Type} (f : state → B).

Lemma preserves_ret {A} (a : A) : preserves f (ret a).
Proof. by intros s r s' [= <- <-]. Qed.

Lemma preserves_raise {A} e : preserves f (raise (A := A) e).
Proof. by intros s r s' [= <- <-]. Qed.

Lemma preserves_lift_result {A} (x : result A) : preserves f (lift_result x).
Proof. by intros s r s' [= <- <-]. Qed.

Lemma preserves_gets {A} (g : state → A) : preserves f (gets g).
Proof. by intros s r s' [= <- <-]. Qed.

Lemma preserves_modify g : (∀ s, f (g s) = f s) → preserves f (modify g).
Proof. intros Hg s r s' [= <- <-]. apply Hg. Qed.

Lemma preserves_bind {A C} (m : M A) (k : A → M C) :
  preserves f m → (∀ a, preserves f (k a)) → preserves f (bind m k).
Proof.
  intros Hm Hk s r s'. unfold bind.
  destruct (m s) as [[a|e] s1] eqn:Hrun.
  - intros Hrun'. rewrite (Hk _ _ _ _ Hrun'). eauto.
  - intros [= <- <-]. eauto.
Qed.

Lemma preserves_handling {A} pending (m : M A) :
  preserves f m → preserves f (handling pending m).
Proof.
  intros Hm s r s'. unfold handling.
  destruct (m s) as [[a|e] s1] eqn:Hrun; intros [= <- <-]; eauto.
Qed.

Lemma preserves_try_except {A} (body : M A) cls handler :
  preserves f body → (∀ e, preserves f (handler e)) →
  preserves f (try_except body cls handler).
Proof.
  intros Hb Hh s r s'. unfold try_except.
  destruct (body s) as [[a|e] s1] eqn:Hrun.
  - intros [= <- <-]. eauto.
  - case_decide.
    + intros Hrun'. rewrite (Hh _ _ _ _ Hrun'). eauto.
    + intros [= <- <-]. eauto.
Qed.

Lemma preserves_mapM {A C} (g : A → M C) l :
  (∀ x, preserves f (g x)) → preserves f (mapM g l).
Proof.
  intros Hg. induction l as [|x l IH]; simpl.
  - apply preserves_ret.
  - apply preserves_bind; [done|]. intros y.
    apply preserves_bind; [done|]. intros. apply preserves_ret.
Qed.

Lemma preserves_concurrently {A} (awaitables : list (M A)) :
  Forall (preserves f) awaitables → preserves f (concurrently awaitables).
Proof.
  induction 1 as [|task tasks Htask _ IH]; simpl.
  - apply preserves_ret.
  - apply preserves_bind; [done|]. intros a.
    apply preserves_bind; [done|]. intros. apply preserves_ret.
Qed.

Lemma preserves_memoized_method {V} (cache : state → gmap pyval V) set_cache
    (g : pyval → M V) arg :
  (∀ c s, f (set_cache c s) = f s) →
  preserves f (g arg) → preserves f (memoized_method cache set_cache g arg).
Proof.
  intros Hset Hg. unfold memoized_method.
  apply preserves_bind; [apply preserves_gets|]. intros c.
  destruct (c !! arg); [apply preserves_ret|].
  apply preserves_bind; [done|]. intros v.
  apply preserves_bind; [apply preserves_gets|]. intros c'.
  apply preserves_bind; [by apply preserves_modify|].
  intros. apply preserves_ret.
Qed.
End preserves.

(** Decomposes a [preserves] goal along the monad's operations. *)
Ltac preserves_step :=
  match goal with
  | |- preserves _ (ret _) => apply preserves_ret
  | |- preserves _ (raise _) => apply preserves_raise
  | |- preserves _ (gets _) => apply preserves_gets
  | |- preserves _ (lift_result _) => apply preserves_lift_result
  | |- preserves _ (track_access _) => apply preserves_modify; done
  | |- preserves _ (modify _) => apply preserves_modify; done
  | |- preserves _ (bind _ _) => apply preserves_bind; [|intros ?]
  | |- preserves _ (try_except _ _ _) =>
      apply preserves_try_except; [|intros ?]
  | |- preserves _ (handling _ _) => apply preserves_handling
  | |- preserves _ (memoized_method _ _ _ _) =>
      apply preserves_memoized_method; [done|]
  | |- preserves _ (mapM _ _) => apply preserves_mapM; intros ?
  | |- preserves _ (match ?x with _ => _ end) => destruct x
  | |- preserves _ _ => progress cbv beta zeta
  end.

Ltac preserves_go := repeat preserves_step.

(** Reading leaves the target as it is. *)
Lemma preserves_tgt_read_value path : preserves tgt (read_value path).
Proof. unfold read_value. preserves_go. Qed.

Lemma preserves_tgt_list_directory path : preserves tgt (list_directory path).
Proof. unfold list_directory. preserves_go. Qed.

Lemma preserves_tgt_list_governors cpu : preserves tgt (list_governors cpu).
Proof. unfold list_governors, read_value. preserves_go. Qed.

Lemma preserves_tgt_get_governor cpu : preserves tgt (get_governor cpu).
Proof. unfold get_governor, read_value. preserves_go. Qed.

Lemma preserves_tgt__list_governor_tunables cpu governor :
  preserves tgt (_list_governor_tunables cpu governor).
Proof.
  unfold _list_governor_tunables, get_governor, read_value, list_directory.
  preserves_go.
Qed.

(** ** Writes to the target *)

(** A write that returns has stored the value at the real path; with
    [verify], the file can be read and the value is one that reads back as
    written. *)
Lemma write_value_Ok path value verify s s' :
  write_value path value verify s = (Ok tt, s') →
  s' = set_files (<[realpath (tgt s) path := py_str value]> (files (tgt s)))
         (add_access (Write path (py_str value)) s)
  ∧ is_Some (files (tgt s) !! realpath (tgt s) path)
  ∧ (verify = true →
       (realpath (tgt s) path ∉ unreadable (tgt s))
       ∧ strip (py_str value) = py_str value).
Proof.
  unfold write_value, bind, track_access, modify, gets; simpl.
  destruct (files _ !! _) eqn:Hfile; simpl; [|done].
  destruct verify; simpl.
  - case_bool_decide; simpl; [done|].
    case_bool_decide; simpl; [|done]. intros [= <-]. eauto.
  - intros [= <-]. split; [done|]. split; [eauto|done].
Qed.

Lemma preserves_write_value {B} (f : state → B) path value verify :
  (∀ c s, f (set_files c s) = f s) → (∀ a s, f (add_access a s) = f s) →
  preserves f (write_value path value verify).
Proof.
  intros Hfiles Haccess. unfold write_value.
  apply preserves_bind; [by apply preserves_modify|]. intros _.
  apply preserves_bind; [apply preserves_gets|]. intros t.
  destruct (files t !! _); [|apply preserves_raise].
  apply preserves_bind; [by apply preserves_modify|]. intros _.
  destruct (_ && bool_decide (_ ∈ _)); [apply preserves_raise|].
  destruct (_ && _); [apply preserves_raise|apply preserves_ret].
Qed.

(** ** set_governor and get_governor *)

(** X1. [set_governor] with a governor that is not in the cpu's
    [scaling_available_governors] raises [TargetStableError] naming the
    governor and the cpu; the target is as before and nothing has been
    written. *)
Theorem set_governor_unsupported cpu governor kwargs s supported s1 :
  list_governors (PStr (cpu_name cpu)) s = (Ok supported, s1) →
  governor ∉ supported →
  set_governor cpu governor kwargs s
  = (Raise (Exn TargetStableError
       ("Governor " +:+ governor +:+ " not supported for cpu "
        +:+ cpu_name cpu) None), s1)
  ∧ tgt s1 = tgt s
  ∧ writes (accesses s1) = writes (accesses s).
Proof.
  intros Hlist Hunsupported. split; [|split].
  - unfold set_governor, bind. rewrite Hlist. by rewrite decide_False.
  - by eapply preserves_tgt_list_governors.
  - eapply emits_no_writes; [|exact Hlist].
    eapply emits_weaken; [|apply emits_list_governors]. by intros ? -> [].
Qed.

Lemma set_governor_unsupported_witness :
  let s := initial ondemand_target in
  (set_governor (PInt 0) "schedutil" [] s).1
  = Raise (Exn TargetStableError
      "Governor schedutil not supported for cpu cpu0" None)
  ∧ governor_of "cpu0" (set_governor (PInt 0) "schedutil" [] s).2
    = Some "ondemand".
Proof.
  intros s.
  destruct (set_governor_unsupported (PInt 0) "schedutil" [] s
              ["ondemand"; "performance"; "userspace"; "interactive"]
              (list_governors (PStr "cpu0") s).2) as (Hrun & Htgt & _).
  - apply run_eq. vm_compute. reflexivity.
  - apply (bool_decide_unpack _). vm_compute. exact I.
  - rewrite Hrun. split; [reflexivity|]. vm_compute. reflexivity.
Defined.

(** X2. After [set_governor(cpu, governor)] has returned, [get_governor]
    returns that governor, for the cpu itself and for every cpu whose
    [scaling_governor] is the same file (the cpus of its policy). *)
Theorem get_governor_after_set_governor cpu cpu' governor s s' :
  set_governor cpu governor [] s = (Ok tt, s') →
  realpath (tgt s) (cpu_cpufreq (cpu_name cpu') "scaling_governor")
  = realpath (tgt s) (cpu_cpufreq (cpu_name cpu) "scaling_governor") →
  (get_governor cpu' s').1 = Ok governor.
Proof.
  unfold set_governor, bind at 1.
  destruct (list_governors _ s) as [[supported|?] s1] eqn:Hlist; [|done].
  case_decide; [|done]. unfold bind at 1.
  destruct (write_value _ _ _ s1) as [[[]|?] s2] eqn:Hwrite; [|done].
  intros [= <-] Hsame.
  apply write_value_Ok in Hwrite as (-> & _ & Hverified).
  destruct (Hverified eq_refl) as [Hreadable Hstrip].
  assert (tgt s1 = tgt s) as Htgt by (by eapply preserves_tgt_list_governors).
  unfold get_governor, read_value, bind, track_access, modify, gets; simpl.
  rewrite Htgt in *. unfold realpath in *. simpl. rewrite Hsame.
  rewrite lookup_insert_eq. rewrite decide_False by done.
  simpl in *. by rewrite Hstrip.
Qed.

Lemma get_governor_after_set_governor_witness :
  let s := initial ondemand_target in
  (get_governor (PInt 1) (set_governor (PInt 0) "performance" [] s).2).1
  = Ok "performance".
Proof.
  intros s.
  apply (get_governor_after_set_governor (PInt 0) (PInt 1) "performance" s).
  - apply run_eq. vm_compute. reflexivity.
  - vm_compute. reflexivity.
Defined.

(** ** The caches *)

(** A memoized method that has returned has stored its result, and with
    the result stored it returns it from any state without running. *)
Lemma memoized_method_Ok {V} (cache : state → gmap pyval V) set_cache
    (f : pyval → M V) arg s v s' :
  (∀ c s, cache (set_cache c s) = c) →
  memoized_method cache set_cache f arg s = (Ok v, s') →
  cache s' !! arg = Some v.
Proof.
  intros Hcache. unfold memoized_method, bind, gets, modify; simpl.
  destruct (cache s !! arg) eqn:Hhit.
  - by intros [= <- <-].
  - destruct (f arg s) as [[v'|?] s1]; [|done]. intros [= <- <-].
    by rewrite Hcache, lookup_insert_eq.
Qed.

Lemma memoized_method_hit {V} (cache : state → gmap pyval V) set_cache
    (f : pyval → M V) arg s v :
  cache s !! arg = Some v →
  memoized_method cache set_cache f arg s = (Ok v, s).
Proof.
  intros Hhit. unfold memoized_method, bind, gets; simpl. by rewrite Hhit.
Qed.

(** X3. [list_governors] is memoized per cpu argument: once it has returned
    a list, a later call returns the same list without any access to the
    target, also after [scaling_available_governors] or any other file has
    been written in between. *)
Theorem list_governors_memoized cpu s supported s1 path value verify r s2 :
  list_governors cpu s = (Ok supported, s1) →
  write_value path value verify s1 = (r, s2) →
  list_governors cpu s2 = (Ok supported, s2).
Proof.
  intros Hfirst Hwrite. apply memoized_method_hit.
  rewrite (preserves_write_value list_governors_memo _ _ _
             (λ _ _, eq_refl) (λ _ _, eq_refl) _ _ _ Hwrite).
  by eapply (memoized_method_Ok list_governors_memo set_list_governors_memo).
Qed.

Lemma list_governors_memoized_witness :
  let s := initial ondemand_target in
  let s1 := (list_governors (PInt 0) s).2 in
  let s2 :=
    (write_value (cpu_cpufreq "cpu0" "scaling_available_governors")
       (PStr "powersave") false s1).2 in
  (list_governors (PInt 0) s2).1
  = Ok ["ondemand"; "performance"; "userspace"; "interactive"]
  ∧ accesses (list_governors (PInt 0) s2).2 = accesses s2.
Proof.
  intros s s1 s2.
  rewrite (list_governors_memoized (PInt 0) s
             ["ondemand"; "performance"; "userspace"; "interactive"] s1
             (cpu_cpufreq "cpu0" "scaling_available_governors")
             (PStr "powersave") false (Ok tt) s2).
  - done.
  - apply run_eq. vm_compute. reflexivity.
  - apply run_eq. vm_compute. reflexivity.
Defined.



(** ** Discovery of a governor's tunables *)

(** X6. The tunables of a governor are discovered once per governor name,
    not per cpu: after [_list_governor_tunables] has returned for
    [governor] on some cpu, a call for the same governor on any cpu returns
    the same data and leaves the state as it is (no directory is listed
    again). *)
Theorem governor_tunables_discovered_once cpu governor s data s1 :
  _list_governor_tunables cpu (Some governor) s = (Ok data, s1) →
  ∀ cpu', _list_governor_tunables cpu' (Some governor) s1 = (Ok data, s1).
Proof.
  unfold _list_governor_tunables at 1. unfold bind at 1, ret at 1.
  case_decide as Hempty; [done|].
  unfold bind at 1, gets at 1.
  destruct (governor_tunables s !! governor) as [cached|] eqn:Hcache.
  - intros [= <- <-] cpu'. unfold _list_governor_tunables, bind, ret, gets.
    rewrite decide_False by done. by rewrite Hcache.
  - unfold bind at 1.
    destruct (try_except _ _ _ s) as [[found|?] s2]; [|done].
    unfold bind, gets, modify, ret. intros [= <- <-] cpu'.
    unfold _list_governor_tunables, bind, ret, gets.
    rewrite decide_False by done. simpl. by rewrite lookup_insert_eq.
Qed.

Lemma governor_tunables_discovered_once_witness :
  let s1 :=
    (_list_governor_tunables (PInt 0) (Some "ondemand")
       (initial ondemand_target)).2 in
  (_list_governor_tunables (PInt 3) (Some "ondemand") s1).1
  = Ok ("ondemand", true, ["sampling_rate"; "up_threshold"])
  ∧ accesses (_list_governor_tunables (PInt 3) (Some "ondemand") s1).2
    = accesses s1.
Proof.
  intros s1.
  rewrite (governor_tunables_discovered_once (PInt 0) "ondemand"
             (initial ondemand_target)
             ("ondemand", true, ["sampling_rate"; "up_threshold"]) s1).
  - done.
  - apply run_eq. vm_compute. reflexivity.
Defined.

Lemma list_directory_missing path s :
  directories (tgt s) !! realpath (tgt s) path = None →
  list_directory path s
  = (Raise (Exn TargetStableError ("cannot list " +:+ path) None),
     add_access (ListDir path) s).
Proof.
  intros Hmissing. unfold list_directory, bind, track_access, modify, gets.
  simpl. by rewrite Hmissing.
Qed.

(** X7. A governor that has a tunable directory neither under the cpu nor
    under [/sys/devices/system/cpu/cpufreq] has no valid tunable: setting
    any tunable of it raises [TargetStableError] for the first name given,
    with an empty list of available tunables; the target is as before and
    nothing has been written. *)
Theorem set_governor_tunables_without_directory cpu governor per_cpu tunable
    value kwargs s :
  governor ≠ "" →
  governor_tunables s !! governor = None →
  directories (tgt s)
    !! realpath (tgt s) (cpu_cpufreq (cpu_name cpu) governor) = None →
  directories (tgt s) !! realpath (tgt s) (global_cpufreq governor) = None →
  ∃ s',
    set_governor_tunables cpu (Some governor) per_cpu
      ((tunable, value) :: kwargs) s
    = (Raise (Exn TargetStableError
         (unexpected_tunable_message tunable governor (cpu_name cpu) []) None),
       s')
    ∧ tgt s' = tgt s
    ∧ writes (accesses s') = writes (accesses s).
Proof.
  intros Hgov Hcache Hcpu Hglobal.
  destruct (_list_governor_tunables (PStr (cpu_name cpu)) (Some governor) s)
    as [r s'] eqn:Hlist.
  assert (r = Ok (governor, false, [])) as ->.
  { revert Hlist. unfold _list_governor_tunables, bind at 1, ret at 1.
    rewrite decide_False by done. unfold bind at 1, gets at 1.
    rewrite Hcache. unfold bind at 1, try_except at 1, bind at 1. simpl.
    rewrite (list_directory_missing _ _ Hcpu). simpl.
    unfold try_except, bind at 1.
    rewrite list_directory_missing by done. simpl.
    unfold bind, gets, modify, ret. by intros [= <- _]. }
  exists s'. split; [|split].
  - unfold set_governor_tunables, bind. rewrite Hlist. simpl.
    done.
  - by eapply preserves_tgt__list_governor_tunables.
  - eapply emits_no_writes; [apply emits__list_governor_tunables|exact Hlist].
Qed.

Lemma set_governor_tunables_without_directory_witness :
  let s := initial ondemand_target in
  (set_governor_tunables (PInt 0) (Some "performance") None
     [("sampling_rate", PInt 1)] s).1
  = Raise (Exn TargetStableError
      ("Unexpected tunable sampling_rate for governor performance on cpu0."
       +:+ nl +:+ "Available tunables are: []") None).
Proof.
  intros s.
  destruct (set_governor_tunables_without_directory (PInt 0) "performance"
              None "sampling_rate" (PInt 1) [] s) as (s' & Hrun & _).
  - done.
  - vm_compute. reflexivity.
  - vm_compute. reflexivity.
  - vm_compute. reflexivity.
  - by rewrite Hrun.
Defined.

(** X8. The [per_cpu] filter: when [per_cpu] is given and differs from how
    the governor keeps its tunables ([gov_per_cpu]), a call with valid
    tunable names writes nothing and returns; its only effect is the
    discovery of the governor's tunables. *)
Theorem set_governor_tunables_filtered_out cpu governor only_per_cpu kwargs
    s g gov_per_cpu valid s1 :
  _list_governor_tunables (PStr (cpu_name cpu)) governor s
  = (Ok (g, gov_per_cpu, valid), s1) →
  gov_per_cpu ≠ only_per_cpu →
  Forall (λ kv, kv.1 ∈ valid) kwargs →
  kwargs ≠ [] →
  set_governor_tunables cpu governor (Some only_per_cpu) kwargs s = (Ok tt, s1)
  ∧ writes (accesses s1) = writes (accesses s).
Proof.
  intros Hlist Hdiffer Hvalid Hne. split.
  - unfold set_governor_tunables. destruct kwargs as [|kv kwargs]; [done|].
    unfold bind. rewrite Hlist. clear Hne Hlist.
    induction Hvalid as [|[tunable value] rest Hin _ IH]; simpl; [done|].
    rewrite decide_True by done.
    rewrite decide_True; [done|]. split; [done|congruence].
  - eapply emits_no_writes; [apply emits__list_governor_tunables|exact Hlist].
Qed.

Lemma set_governor_tunables_filtered_out_witness :
  let s := initial ondemand_target in
  (set_governor_tunables (PInt 0) (Some "ondemand") (Some false)
     [("sampling_rate", PInt 20000)] s).1 = Ok tt
  ∧ writes (accesses
      (set_governor_tunables (PInt 0) (Some "ondemand") (Some false)
         [("sampling_rate", PInt 20000)] s).2) = [].
Proof.
  intros s.
  destruct (set_governor_tunables_filtered_out (PInt 0) (Some "ondemand")
              false [("sampling_rate", PInt 20000)] s "ondemand" true
              ["sampling_rate"; "up_threshold"]
              (_list_governor_tunables (PStr "cpu0") (Some "ondemand") s).2)
    as [Hrun Hwrites].
  - apply run_eq. vm_compute. reflexivity.
  - done.
  - apply (bool_decide_unpack _). vm_compute. exact I.
  - done.
  - rewrite Hrun. split; [done|]. simpl. rewrite Hwrites. reflexivity.
Defined.

(** ** The mapping of get_governor_tunables *)

Lemma concurrently_length {A} (awaitables : list (M A)) s results s' :
  concurrently awaitables s = (Ok results, s') →
  length results = length awaitables.
Proof.
  revert s results. induction awaitables as [|task tasks IH];
    intros s results; simpl.
  - by intros [= <- <-].
  - unfold bind at 1. destruct (task s) as [[a|?] s1]; [|done].
    unfold bind at 1.
    destruct (concurrently tasks s1) as [[rest|?] s2] eqn:Hrest; [|done].
    intros [= <- <-]. simpl. f_equal. by eapply IH.
Qed.

Lemma dict_set_fresh {K V} `{EqDecision K} (d : pydict K V) k v :
  k ∉ dict_keys d → dict_set k v d = d ++ [(k, v)].
Proof.
  unfold dict_keys. induction d as [|[k0 v0] d IH]; simpl; [done|].
  intros Hfresh%not_elem_of_cons. destruct Hfresh as [Hne Hfresh].
  rewrite decide_False by done. by rewrite IH.
Qed.

Lemma foldl_dict_set_fresh {K V} `{EqDecision K} (items d : pydict K V) :
  NoDup (dict_keys d ++ items.*1) →
  foldl (λ d kv, dict_set kv.1 kv.2 d) d items = d ++ items.
Proof.
  revert d. induction items as [|[k v] items IH]; intros d Hnodup; simpl.
  - by rewrite app_nil_r.
  - simpl in Hnodup.
    rewrite dict_set_fresh.
    + rewrite IH; [by rewrite <-(assoc_L (++))|].
      unfold dict_keys in *. rewrite fmap_app. simpl.
      by rewrite <-(assoc_L (++)).
    + apply NoDup_app in Hnodup as (_ & Hdisjoint & _).
      intros Hin. apply (Hdisjoint _ Hin). left.
Qed.

(** [dict(items)] keeps items with pairwise different keys as they are. *)
Lemma dict_of_items_NoDup {K V} `{EqDecision K} (items : pydict K V) :
  NoDup items.*1 → dict_of_items items = items.
Proof.
  intros Hnodup. unfold dict_of_items. by rewrite foldl_dict_set_fresh.
Qed.

(** X9. The keys of the mapping [get_governor_tunables] returns are the
    governor's listed tunables without the write-only ones, in the order of
    the listing (the listing having no repeated name). *)
Theorem get_governor_tunables_key_fidelity cpu s g gov_per_cpu valid s1
    tunables s' :
  _list_governor_tunables (PStr (cpu_name cpu)) None s
  = (Ok (g, gov_per_cpu, valid), s1) →
  get_governor_tunables cpu s = (Ok tunables, s') →
  NoDup valid →
  dict_keys tunables
  = filter (λ tunable, tunable ∉ default [] (dict_get g WRITE_ONLY_TUNABLES))
      valid.
Proof.
  intros Hlist. unfold get_governor_tunables, bind at 1. rewrite Hlist.
  unfold map_concurrently, bind.
  destruct (concurrently _ s1) as [[results|?] s2] eqn:Hresults; [|done].
  intros [= <- <-] Hnodup.
  apply concurrently_length in Hresults. rewrite length_fmap in Hresults.
  set (keys := filter _ valid) in *.
  rewrite dict_of_items_NoDup.
  - unfold dict_keys. by rewrite fst_zip by lia.
  - rewrite fst_zip by lia. by apply NoDup_filter.
Qed.

Lemma get_governor_tunables_key_fidelity_witness :
  dict_keys
    [("sampling_rate", "10000"); ("up_threshold", "95")]
  = filter (λ tunable, tunable ∉ default [] (dict_get "ondemand" WRITE_ONLY_TUNABLES))
      ["sampling_rate"; "up_threshold"].
Proof.
  apply (get_governor_tunables_key_fidelity (PInt 2)
           (initial ondemand_target) "ondemand" true
           ["sampling_rate"; "up_threshold"]
           (_list_governor_tunables (PStr "cpu2") None
              (initial ondemand_target)).2
           [("sampling_rate", "10000"); ("up_threshold", "95")]
           (get_governor_tunables (PInt 2) (initial ondemand_target)).2).
  - apply run_eq. vm_compute. reflexivity.
  - apply run_eq. vm_compute. reflexivity.
  - apply (bool_decide_unpack _). vm_compute. exact I.
Defined.

(** ** The phases of use_governor *)

Lemma emits_map_concurrently_all {K A} `{EqDecision K} P (f : K → M A) keys :
  (∀ k, emits P (f k)) → emits P (map_concurrently f keys).
Proof. intros Hf. apply emits_map_concurrently. auto. Qed.

Lemma preserves_map_concurrently {K A B} `{EqDecision K} (g : state → B)
    (f : K → M A) keys :
  (∀ k, preserves g (f k)) → preserves g (map_concurrently f keys).
Proof.
  intros Hf. unfold map_concurrently.
  apply preserves_bind; [|intros; apply preserves_ret].
  apply preserves_concurrently, Forall_fmap, Forall_forall. auto.
Qed.

Lemma emits_get_cpu_info cpu : emits (λ a, ¬ is_write a) (get_cpu_info cpu).
Proof.
  unfold get_cpu_info. emits_go.
  - unfold get_affected_cpus. emits_go.
    + apply emits_read_value. by intros [].
    + apply emits_ints_of.
  - eapply emits_weaken; [|apply emits_get_governor]. by intros ? -> [].
  - unfold get_governor_tunables. emits_go.
    + apply emits__list_governor_tunables.
    + apply emits_map_concurrently_all. intros tunable.
      unfold get_tunable. emits_go; apply emits_read_value; by intros [].
  - apply emits_get_frequency.
Qed.

Lemma preserves_tgt_ints_of l : preserves tgt (ints_of l).
Proof. unfold ints_of. preserves_go. Qed.

Lemma preserves_tgt_get_cpu_info cpu : preserves tgt (get_cpu_info cpu).
Proof.
  unfold get_cpu_info. preserves_go.
  - unfold get_affected_cpus. preserves_go;
      [apply preserves_tgt_read_value|apply preserves_tgt_ints_of].
  - apply preserves_tgt_get_governor.
  - unfold get_governor_tunables. preserves_go.
    + apply preserves_tgt__list_governor_tunables.
    + apply preserves_map_concurrently. intros tunable.
      unfold get_tunable. preserves_go; apply preserves_tgt_read_value.
  - unfold get_frequency, read_int. preserves_go.
    apply preserves_tgt_read_value.
Qed.

Lemma preserves_tgt_use_governor_capture cpus :
  preserves tgt (use_governor_capture cpus).
Proof.
  unfold use_governor_capture, list_online_cpus. preserves_go;
    apply preserves_map_concurrently, preserves_tgt_get_cpu_info.
Qed.

(** X10. The capture of [use_governor] only reads: whether it returns or
    raises, the target is as before and no write has been issued. *)
Theorem use_governor_capture_reads_only cpus s :
  tgt (use_governor_capture cpus s).2 = tgt s
  ∧ writes (accesses (use_governor_capture cpus s).2) = writes (accesses s).
Proof.
  destruct (use_governor_capture cpus s) as [r s'] eqn:Hrun. simpl. split.
  - by eapply preserves_tgt_use_governor_capture.
  - eapply emits_no_writes; [|exact Hrun].
    unfold use_governor_capture. emits_go;
      try apply emits_list_online_cpus;
      apply emits_map_concurrently_all, emits_get_cpu_info.
Qed.

(** X11. The apply of [use_governor] is outside the [try]: when it raises,
    after some domains may already have been switched, [use_governor]
    raises that exception from the state the apply has left; neither the
    body nor the restoring [finally] block is run. *)
Theorem use_governor_apply_failure {A} so governor cpus kwargs (body : M A)
    s cpus_infos s1 domains s2 e s3 :
  use_governor_capture cpus s = (Ok cpus_infos, s1) →
  use_governor_domains cpus_infos s1 = (Ok domains, s2) →
  use_governor_apply so governor kwargs domains s2 = (Raise e, s3) →
  use_governor so governor cpus kwargs body s = (Raise e, s3).
Proof.
  intros Hcapture Hdomains Happly. unfold use_governor.
  unfold bind at 1. rewrite Hcapture.
  unfold bind at 1. rewrite Hdomains.
  unfold bind at 1. by rewrite Happly.
Qed.

Lemma use_governor_apply_failure_witness :
  let r :=
    use_governor ascending "performance" None [] (ret tt)
      (initial lopsided_target) in
  r.1 = Raise (Exn TargetStableError
          "Governor performance not supported for cpu cpu2" None)
  ∧ governor_of "cpu0" r.2 = Some "performance".
Proof.
  intros r. subst r.
  eassert (use_governor ascending "performance" None [] (ret tt)
             (initial lopsided_target) = (Raise _, _)) as Hrun.
  { eapply (use_governor_apply_failure ascending "performance" None []
              (ret tt) (initial lopsided_target));
      apply run_eq; vm_compute; reflexivity. }
  rewrite Hrun. split; [reflexivity|]. vm_compute. reflexivity.
Defined.

(** X12. When the [finally] block of [use_governor] returns, the outcome of
    [use_governor] is the outcome of the body, its value or its exception,
    delivered after the block has run from the state the body left. *)
Theorem use_governor_body_outcome {A} so governor cpus kwargs (body : M A)
    s cpus_infos s1 domains s2 us s3 r s4 u s5 :
  use_governor_capture cpus s = (Ok cpus_infos, s1) →
  use_governor_domains cpus_infos s1 = (Ok domains, s2) →
  use_governor_apply so governor kwargs domains s2 = (Ok us, s3) →
  body s3 = (r, s4) →
  use_governor_finally so cpus_infos domains s4 = (Ok u, s5) →
  use_governor so governor cpus kwargs body s = (r, s5).
Proof.
  intros Hcapture Hdomains Happly Hbody Hfinally.
  rewrite (use_governor_entered _ _ _ _ _ _ _ _ _ _ _ _
             Hcapture Hdomains Happly).
  unfold try_finally, handling. rewrite Hbody.
  destruct r; by rewrite Hfinally.
Qed.

Lemma use_governor_body_outcome_witness :
  let r :=
    use_governor ascending "performance" None []
      (raise (A := unit) body_error) (initial ondemand_target) in
  r.1 = Raise body_error ∧ governor_of "cpu0" r.2 = Some "ondemand".
Proof.
  intros r. subst r.
  eassert (use_governor ascending "performance" None []
             (raise (A := unit) body_error) (initial ondemand_target)
           = (Raise body_error, _)) as Hrun.
  { eapply (use_governor_body_outcome ascending "performance" None []
              (raise body_error) (initial ondemand_target));
      first [ apply run_eq; vm_compute; reflexivity | reflexivity ]. }
  rewrite Hrun. split; [reflexivity|]. vm_compute. reflexivity.
Defined.

(** ** The restore of the governors *)

Lemma restore_tasks_Ok (cpus_infos : pydict pyval cpu_info) l s tasks s' :
  mapM (λ cpu,
          let* info := dict_item cpus_infos (PInt cpu) in
          ret (set_governor (PInt cpu) (info_prev_gov info) [])) l s
  = (Ok tasks, s') →
  s' = s
  ∧ ∃ infos,
      Forall2 (λ cpu info, dict_get (PInt cpu) cpus_infos = Some info) l infos
      ∧ tasks = zip_with (λ cpu info,
                            set_governor (PInt cpu) (info_prev_gov info) [])
                  l infos.
Proof.
  revert tasks. induction l as [|cpu l IH]; intros tasks; simpl.
  - intros [= <- <-]. split; [done|]. by exists [].
  - unfold bind at 1, dict_item at 1.
    destruct (dict_get (PInt cpu) cpus_infos) as [info|] eqn:Hinfo; [|done].
    simpl. unfold bind at 1.
    destruct (mapM _ l s) as [[tasks'|?] s1] eqn:Hl; [|done].
    intros [= <- <-]. destruct (IH _ eq_refl) as (-> & infos & Hinfos & ->).
    split; [done|]. exists (info :: infos). split; [by constructor|done].
Qed.

Lemma concurrently_restore_writes l (infos : list cpu_info) s us s' :
  length l = length infos →
  concurrently
    (zip_with (λ cpu info, set_governor (PInt cpu) (info_prev_gov info) [])
       l infos) s = (Ok us, s') →
  writes (accesses s')
  = writes (accesses s)
    ++ zip_with (λ cpu info,
                   (cpu_cpufreq (cpu_name (PInt cpu)) "scaling_governor",
                    info_prev_gov info)) l infos.
Proof.
  revert infos s us. induction l as [|cpu l IH]; intros [|info infos] s us;
    simpl; try done.
  - intros _ [= <- <-]. by rewrite app_nil_r.
  - intros [= Hlen]. unfold bind at 1.
    destruct (set_governor _ _ _ s) as [[u|?] s1] eqn:Hset; [|done].
    unfold bind at 1.
    destruct (concurrently _ s1) as [[us'|?] s2] eqn:Hl; [|done].
    intros [= <- <-].
    apply set_governor_Ok_writes in Hset as (w & Hw & pc & g & ->).
    rewrite (IH _ _ _ Hlen Hl), Hw. simpl. by rewrite <-(assoc_L (++)).
Qed.

(** X13. When the governor restore of the [finally] block returns, every
    cpu of [domains] had an entry in [cpus_infos], and the restore has
    written, for each cpu of [domains] in iteration order, the governor
    captured for that very cpu to the cpu's [scaling_governor], and nothing
    else. *)
Theorem restore_governors_writes so cpus_infos domains s us s' :
  restore_governors so cpus_infos domains s = (Ok us, s') →
  ∃ infos,
    Forall2 (λ cpu info, dict_get (PInt cpu) cpus_infos = Some info)
      (set_iter so domains) infos
    ∧ writes (accesses s')
      = writes (accesses s)
        ++ zip_with (λ cpu info,
                       (cpu_cpufreq (cpu_name (PInt cpu)) "scaling_governor",
                        info_prev_gov info))
             (set_iter so domains) infos.
Proof.
  unfold restore_governors, bind at 1.
  destruct (mapM _ _ s) as [[tasks|?] s1] eqn:Htasks; [|done].
  apply restore_tasks_Ok in Htasks as (-> & infos & Hinfos & ->).
  intros Hrun. exists infos. split; [done|].
  eapply concurrently_restore_writes; [|exact Hrun].
  by eapply Forall2_length.
Qed.

Lemma restore_governors_writes_witness :
  let info01 :=
    CpuInfo [0; 1]%Z "ondemand"
      [("sampling_rate", "10000"); ("up_threshold", "95")] 1000000 in
  let info23 :=
    CpuInfo [2; 3]%Z "userspace" [] 500000 in
  let cpus_infos :=
    [(PInt 0, info01); (PInt 1, info01); (PInt 2, info23); (PInt 3, info23)] in
  let s := initial ondemand_target in
  ∃ infos,
    Forall2 (λ cpu info, dict_get (PInt cpu) cpus_infos = Some info)
      [0; 2]%Z infos
    ∧ writes (accesses (restore_governors ascending cpus_infos {[0; 2]}%Z s).2)
      = writes (accesses s)
        ++ zip_with (λ cpu info,
                       (cpu_cpufreq (cpu_name (PInt cpu)) "scaling_governor",
                        info_prev_gov info)) [0; 2]%Z infos.
Proof.
  intros info01 info23 cpus_infos s.
  destruct (restore_governors_writes ascending cpus_infos {[0; 2]}%Z s
              [tt; tt] (restore_governors ascending cpus_infos {[0; 2]}%Z s).2)
    as (infos & Hinfos & Hwrites).
  - apply run_eq. vm_compute. reflexivity.
  - exists infos. split; [exact Hinfos|exact Hwrites].
Defined.
